(** * khl.receiver: the websocket and webhook receivers

    A shallow embedding of [khl/receiver.py].  Decoded packages are JSON
    values as Python's [json.loads] builds them; the receivers are records
    holding the fields of the Python objects; a method is a computation in a
    state-and-exception monad over its [self].  The collaborators that live
    outside the module ([zlib.decompress], [Cert.decode_raw],
    [request.read], [time.time]) are taken as given; the time is a binary64
    float, as Python's is. *)

From Stdlib Require Import ZArith Floats.
From stdpp Require Import base strings list gmap.

Set Warnings "-register-all,-inexact-float".

Local Open Scope string_scope.
Local Open Scope list_scope.
Local Open Scope Z_scope.

(** ** Python values *)

Module Py.

(** What [json.loads] returns: None, bool, int, str, list, dict.  A dict is
    kept as the list of its items; numbers with a fraction or an exponent
    (Python floats) are outside this model. *)
Inductive json : Type :=
| JNull
| JBool (b : bool)
| JInt (z : Z)
| JStr (s : string)
| JArr (items : list json)
| JObj (items : list (string * json)).

Inductive exn : Type :=
| KeyError (key : string)
| TypeError
| AttributeError
| ZlibError
| DecodeError
| ReadError
| SendError.

Inductive result (A : Type) : Type :=
| Return (a : A)
| Raise (e : exn).
Arguments Return {A} a.
Arguments Raise {A} e.

Definition bytes := list Byte.byte.

(** [d[k]] for a dict given by its items. *)
Fixpoint items_lookup (k : string) (items : list (string * json)) : option json :=
  match items with
  | [] => None
  | (k', v) :: rest => if String.eqb k k' then Some v else items_lookup k rest
  end.

(** [v[k]] with a string key: KeyError on a dict without the key,
    TypeError on anything that is not a dict. *)
Definition subscript (v : json) (k : string) : result json :=
  match v with
  | JObj items =>
      match items_lookup k items with
      | Some x => Return x
      | None => Raise (KeyError k)
      end
  | _ => Raise TypeError
  end.

(** [v.get(k, None)]: only dicts have [get]. *)
Definition dict_get (v : json) (k : string) : result json :=
  match v with
  | JObj items =>
      match items_lookup k items with
      | Some x => Return x
      | None => Return JNull
      end
  | _ => Raise AttributeError
  end.

(** [bool(v)], as [not pkg] uses it. *)
Definition truthy (v : json) : bool :=
  match v with
  | JNull => false
  | JBool b => b
  | JInt z => negb (z =? 0)
  | JStr s => negb (String.eqb s "")
  | JArr [] => false
  | JArr (_ :: _) => true
  | JObj [] => false
  | JObj (_ :: _) => true
  end.

(** [v == n] for an int literal [n]: bools are ints in Python
    ([False == 0], [True == 1]). *)
Definition eq_int (v : json) (n : Z) : bool :=
  match v with
  | JInt z => z =? n
  | JBool b => Z.b2z b =? n
  | _ => false
  end.

(** [v == s] for a str [s]. *)
Definition eq_str (v : json) (s : string) : bool :=
  match v with
  | JStr t => String.eqb t s
  | _ => false
  end.

Definition is_None (v : json) : bool :=
  match v with
  | JNull => true
  | _ => false
  end.

(** Dict keys: what [hash] and [==] identify.  [True] and [1] are one key,
    lists and dicts are unhashable. *)
Inductive key : Type :=
| KNone
| KNum (z : Z)
| KStr (s : string).

Definition hash_key (v : json) : result key :=
  match v with
  | JNull => Return KNone
  | JBool b => Return (KNum (Z.b2z b))
  | JInt z => Return (KNum z)
  | JStr s => Return (KStr s)
  | JArr _ => Raise TypeError
  | JObj _ => Raise TypeError
  end.

#[global] Instance key_eq_dec : EqDecision key.
Proof. solve_decision. Defined.

Definition key_enc (k : key) : option (Z + string) :=
  match k with
  | KNone => None
  | KNum z => Some (inl z)
  | KStr s => Some (inr s)
  end.

Definition key_dec (o : option (Z + string)) : key :=
  match o with
  | None => KNone
  | Some (inl z) => KNum z
  | Some (inr s) => KStr s
  end.

#[global] Instance key_countable : Countable key.
Proof. apply (inj_countable' key_enc key_dec). by intros []. Defined.

(** *** State and exceptions

    A method body: it reads and updates its [self] and either returns or
    raises; what it assigned before raising stays assigned. *)
Definition M (S A : Type) : Type := S -> result A * S.

Definition ret {S A} (a : A) : M S A := fun s => (Return a, s).

Definition raise {S A} (e : exn) : M S A := fun s => (Raise e, s).

Definition bind {S A B} (c : M S A) (k : A -> M S B) : M S B :=
  fun s =>
    match c s with
    | (Return a, s') => k a s'
    | (Raise e, s') => (Raise e, s')
    end.

Definition lift {S A} (r : result A) : M S A := fun s => (r, s).

Definition gets {S A} (f : S -> A) : M S A := fun s => (Return (f s), s).

Definition modify {S} (f : S -> S) : M S unit := fun s => (Return tt, f s).

(** [try: c  except Exception as e: h e] *)
Definition try_except {S A} (c : M S A) (h : exn -> M S A) : M S A :=
  fun s =>
    match c s with
    | (Return a, s') => (Return a, s')
    | (Raise e, s') => h e s'
    end.

End Py.

Import Py.

Notation "'let*' x ':=' c 'in' k" := (bind c (fun x => k))
  (at level 10, x name, c at level 100, k at level 200).
Notation "c ';;' k" := (bind c (fun _ => k))
  (at level 100, k at level 200, right associativity).

(** ** Collaborators *)

(** [khl.cert.Cert], as far as the receivers use it: the bot token, the
    verify token of the webhook, and [decode_raw], which turns the (already
    decompressed) bytes into a package or raises. *)
Record Cert : Type := {
  token : string;
  verify_token : string;
  decode_raw : bytes -> result json;
}.

(** ** class WebsocketReceiver *)

Module Websocket.

(** An [aiohttp.WSMessage]: the loop reads its [data] only. *)
Record WSMessage : Type := { data : bytes }.

Record WebsocketReceiver : Type := {
  _cert : Cert;
  compress : bool;
  _NEWEST_SN : json;
  _queue : list json;
}.

(** [__init__]: the newest sequence number starts at 0. *)
Definition init (cert : Cert) (compress : bool) (queue : list json) : WebsocketReceiver :=
  {| _cert := cert; compress := compress; _NEWEST_SN := JInt 0; _queue := queue |}.

Definition set_NEWEST_SN (sn : json) (self : WebsocketReceiver) : WebsocketReceiver :=
  {| _cert := _cert self; compress := compress self; _NEWEST_SN := sn;
     _queue := _queue self |}.

(** [await self.pkg_queue.put(x)]: the queue is first in, first out. *)
Definition pkg_queue_put (x : json) (self : WebsocketReceiver) : WebsocketReceiver :=
  {| _cert := _cert self; compress := compress self; _NEWEST_SN := _NEWEST_SN self;
     _queue := _queue self ++ [x] |}.

(** The connection, seen from the receiver: what has been sent on it. *)
Record ClientWebSocketResponse : Type := { sent : list json }.

(** The receiver together with the connection its two tasks share. *)
Record Running : Type := {
  self : WebsocketReceiver;
  ws_conn : ClientWebSocketResponse;
}.

Definition on_self (f : WebsocketReceiver -> WebsocketReceiver) (r : Running) : Running :=
  {| self := f (self r); ws_conn := ws_conn r |}.

(** [await ws_conn.send_json(msg)]: the message goes out, or the send
    raises and nothing goes out. *)
Definition send_json (msg : json) (ok : bool) : M Running unit :=
  if ok
  then modify (fun r => {| self := self r; ws_conn := {| sent := sent (ws_conn r) ++ [msg] |} |})
  else raise SendError.

Section Methods.

Variable zlib_decompress : bytes -> result bytes.

(** One turn of the [while True] of [heartbeat], after its sleep of 26
    seconds is over. *)
Definition heartbeat (send_ok : bool) : M Running unit :=
  try_except
    (let* sn := gets (fun r => _NEWEST_SN (self r)) in
     send_json (JObj [("s", JInt 2); ("sn", sn)]) send_ok)
    (fun e => ret tt).

(** The body of [async for raw in ws_conn] in [start]. *)
Definition recv (raw : WSMessage) : M Running unit :=
  try_except
    (let data := data raw in
     let* compress := gets (fun r => compress (self r)) in
     let* data := lift (if compress then zlib_decompress data else Return data) in
     let* cert := gets (fun r => _cert (self r)) in
     let* pkg := lift (decode_raw cert data) in
     let* s := lift (subscript pkg "s") in
     if negb (eq_int s 0) then ret tt
     else
       let* sn := lift (subscript pkg "sn") in
       modify (on_self (set_NEWEST_SN sn));;
       let* d := lift (subscript pkg "d") in
       modify (on_self (pkg_queue_put d)))
    (fun e => ret tt).

(** The two tasks of a connection take turns: the receive loop handles the
    next frame, or the heartbeat task wakes up. *)
Inductive turn : Type :=
| Frame (raw : WSMessage)
| Beat (send_ok : bool).

Definition step (t : turn) : M Running unit :=
  match t with
  | Frame raw => recv raw
  | Beat ok => heartbeat ok
  end.

Fixpoint run (ts : list turn) : M Running unit :=
  match ts with
  | [] => ret tt
  | t :: rest => step t;; run rest
  end.

(** The receive loop alone, over the frames of a connection. *)
Definition start_loop (frames : list WSMessage) : M Running unit :=
  run (map Frame frames).

(** *** Vocabulary of the statements *)

(** What the bytes of a frame decode to: decompressed if the receiver
    compresses, then [decode_raw]. *)
Definition decode (compress : bool) (cert : Cert) (data : bytes) : result json :=
  match (if compress then zlib_decompress data else Return data) with
  | Return data => decode_raw cert data
  | Raise e => Raise e
  end.

(** The frame decodes to a package whose signal [s] is there and is 0. *)
Definition signal_zero (self : WebsocketReceiver) (raw : WSMessage) (pkg : json) : Prop :=
  decode (compress self) (_cert self) (data raw) = Return pkg /\
  exists s, subscript pkg "s" = Return s /\ eq_int s 0 = true.

(** The frame is an event envelope: signal 0, sequence number [sn], data [d]. *)
Definition event_envelope (self : WebsocketReceiver) (raw : WSMessage) (sn d : json) : Prop :=
  exists pkg, signal_zero self raw pkg /\
    subscript pkg "sn" = Return sn /\ subscript pkg "d" = Return d.

(** The heartbeat message that carries [sn]. *)
Definition heartbeat_message (sn : json) : json :=
  JObj [("s", JInt 2); ("sn", sn)].

(** What handling one frame does to the receiver and its connection, by
    cases on the frame. *)
Definition recv_effect (raw : WSMessage) (r : Running) : Running :=
  match decode (compress (self r)) (_cert (self r)) (data raw) with
  | Return pkg =>
      match subscript pkg "s" with
      | Return s =>
          if eq_int s 0
          then match subscript pkg "sn" with
               | Return sn =>
                   match subscript pkg "d" with
                   | Return d => on_self (pkg_queue_put d) (on_self (set_NEWEST_SN sn) r)
                   | Raise _ => on_self (set_NEWEST_SN sn) r
                   end
               | Raise _ => r
               end
          else r
      | Raise _ => r
      end
  | Raise _ => r
  end.

End Methods.

End Websocket.

(** ** class WebhookReceiver *)

Module Webhook.

(** An [aiohttp.web.Request]: the handler reads its body, and the read may
    raise. *)
Record Request : Type := { read : result bytes }.

(** An [aiohttp.web.Response]: the status and the body, if any. *)
Record Response : Type := {
  status : Z;
  body : option json;
}.

(** [web.Response()]: status 200 and no body. *)
Definition web_Response : Response := {| status := 200; body := None |}.

(** [web.json_response(data)]: status 200 and [data] as the JSON body. *)
Definition web_json_response (data : json) : Response :=
  {| status := 200; body := Some data |}.

(** Timestamps are what [time.time()] returns: binary64 floats, with the
    rounding of their arithmetic. *)
Record WebhookReceiver : Type := {
  _cert : Cert;
  port : Z;
  route : string;
  compress : bool;
  sn_dup_map : gmap key float;
  _queue : list json;
}.

(** [__init__]: the ledger starts empty. *)
Definition init (cert : Cert) (port : Z) (route : string) (compress : bool)
    (queue : list json) : WebhookReceiver :=
  {| _cert := cert; port := port; route := route; compress := compress;
     sn_dup_map := ∅; _queue := queue |}.

(** [self.sn_dup_map[sn] = current] *)
Definition sn_dup_map_set (sn : key) (current : float) (self : WebhookReceiver) : WebhookReceiver :=
  {| _cert := _cert self; port := port self; route := route self;
     compress := compress self;
     sn_dup_map := <[sn := current]> (sn_dup_map self);
     _queue := _queue self |}.

(** [await self.pkg_queue.put(x)] *)
Definition pkg_queue_put (x : json) (self : WebhookReceiver) : WebhookReceiver :=
  {| _cert := _cert self; port := port self; route := route self;
     compress := compress self; sn_dup_map := sn_dup_map self;
     _queue := _queue self ++ [x] |}.

(** [current - seen <= 600]: the subtraction of floats, rounded to the
    nearest, and their comparison. *)
Definition within_window (current seen : float) : bool :=
  PrimFloat.leb (PrimFloat.sub current seen) 600%float.

(** [_is_dup], with [current] the value [time.time()] gives it. *)
Definition _is_dup (current : float) (req : json) : M WebhookReceiver bool :=
  let* sn := lift (dict_get req "sn") in
  if is_None sn then ret false
  else
    let* k := lift (hash_key sn) in
    let* m := gets sn_dup_map in
    let dup :=
      match m !! k with
      | Some seen => within_window current seen
      | None => false
      end in
    if dup then ret true
    else
      modify (sn_dup_map_set k current);;
      ret false.

(** The key under which the ledger files a package: its [sn], when it is
    there, is not None and can be hashed. *)
Definition ledger_key (req : json) : option key :=
  match dict_get req "sn" with
  | Return sn =>
      if is_None sn then None
      else match hash_key sn with
           | Return k => Some k
           | Raise _ => None
           end
  | Raise _ => None
  end.

Section Methods.

Variable zlib_decompress : bytes -> result bytes.

(** [on_recv], the handler [start] registers on the route. *)
Definition on_recv (current : float) (request : Request) : M WebhookReceiver Response :=
  let* decoded :=
    try_except
      (let* data := lift (read request) in
       let* compress := gets compress in
       let* data := lift (if compress then zlib_decompress data else Return data) in
       let* cert := gets _cert in
       let* pkg := lift (decode_raw cert data) in
       ret (inl pkg))
      (fun e => ret (inr web_Response)) in
  match decoded with
  | inr response => ret response
  | inl pkg =>
      if negb (truthy pkg) then ret web_Response
      else
        let* d := lift (subscript pkg "d") in
        let* tok := lift (subscript d "verify_token") in
        let* cert := gets _cert in
        if negb (eq_str tok (verify_token cert)) then ret web_Response
        else
          let* dup := _is_dup current pkg in
          if dup then ret web_Response
          else
            let* s := lift (subscript pkg "s") in
            if eq_int s 0
            then
              let* pkg := lift (subscript pkg "d") in
              let* ty := lift (subscript pkg "type") in
              let* challenge :=
                (if eq_int ty 255
                 then
                   let* ct := lift (subscript pkg "channel_type") in
                   ret (eq_str ct "WEBHOOK_CHALLENGE")
                 else ret false) in
              if challenge
              then
                let* c := lift (subscript pkg "challenge") in
                ret (web_json_response (JObj [("challenge", c)]))
              else
                modify (pkg_queue_put pkg);;
                ret web_Response
            else ret web_Response
  end.

(** The server: the deliveries are handled one after the other, each at its
    own time; what a handler raises goes to the HTTP runtime and the next
    delivery is handled all the same. *)
Fixpoint serve (deliveries : list (float * Request)) (self : WebhookReceiver)
    : list (result Response) * WebhookReceiver :=
  match deliveries with
  | [] => ([], self)
  | (current, request) :: rest =>
      let '(r, self') := on_recv current request self in
      let '(rs, self'') := serve rest self' in
      (r :: rs, self'')
  end.

(** *** Vocabulary of the statements *)

(** What the body of a request decodes to. *)
Definition decode (compress : bool) (cert : Cert) (request : Request) : result json :=
  match read request with
  | Return data =>
      match (if compress then zlib_decompress data else Return data) with
      | Return data => decode_raw cert data
      | Raise e => Raise e
      end
  | Raise e => Raise e
  end.

(** The delivery decodes to [pkg], whose data is [d], and the verify token
    in [d] is the receiver's. *)
Definition verified (self : WebhookReceiver) (request : Request) (pkg d : json) : Prop :=
  decode (compress self) (_cert self) request = Return pkg /\
  subscript pkg "d" = Return d /\
  exists tok, subscript d "verify_token" = Return tok /\
    eq_str tok (verify_token (_cert self)) = true.

(** The package has signal 0. *)
Definition signal_zero (pkg : json) : Prop :=
  exists s, subscript pkg "s" = Return s /\ eq_int s 0 = true.

(** The data is the challenge of the handshake, carrying [c]. *)
Definition challenge_data (d c : json) : Prop :=
  (exists ty, subscript d "type" = Return ty /\ eq_int ty 255 = true) /\
  (exists ct, subscript d "channel_type" = Return ct /\
     eq_str ct "WEBHOOK_CHALLENGE" = true) /\
  subscript d "challenge" = Return c.

(** The data is an event for the consumer: it has a type tag, and type tag
    and channel type are not those of the challenge. *)
Definition event_data (d : json) : Prop :=
  exists ty, subscript d "type" = Return ty /\
    (eq_int ty 255 = false \/
     exists ct, subscript d "channel_type" = Return ct /\
       eq_str ct "WEBHOOK_CHALLENGE" = false).

End Methods.

End Webhook.

(** ** Fixtures

    A certificate whose [decode_raw] looks the package up in a table by the
    length of the data, and a [zlib.decompress] that strips a one-byte header. *)

Module Fixture.

Definition table_decode (table : list json) (data : bytes) : result json :=
  match nth_error table (length data) with
  | Some pkg => Return pkg
  | None => Raise DecodeError
  end.

Definition cert (table : list json) : Cert :=
  {| token := "token"; verify_token := "secret"; decode_raw := table_decode table |}.

Definition inflate (data : bytes) : result bytes :=
  match data with
  | Byte.x78 :: rest => Return rest
  | _ => Raise ZlibError
  end.

(** Packages: an event, a control signal, a package with signal 1 that
    passes the token check, the challenge of the handshake, the same with a
    wrong verify token, an event without data, an event without sequence
    number. *)
Definition event_d : json :=
  JObj [("verify_token", JStr "secret"); ("type", JInt 1); ("content", JStr "hi")].

Definition event_pkg : json :=
  JObj [("s", JInt 0); ("sn", JInt 42); ("d", event_d)].

Definition pong_pkg : json := JObj [("s", JInt 3)].

Definition signal_pkg : json :=
  JObj [("s", JInt 1); ("sn", JInt 42); ("d", JObj [("verify_token", JStr "secret")])].

Definition challenge_d : json :=
  JObj [("type", JInt 255); ("channel_type", JStr "WEBHOOK_CHALLENGE");
        ("challenge", JStr "abc123"); ("verify_token", JStr "secret")].

Definition challenge_pkg : json :=
  JObj [("s", JInt 0); ("sn", JInt 0); ("d", challenge_d)].

Definition forged_d : json :=
  JObj [("type", JInt 255); ("channel_type", JStr "WEBHOOK_CHALLENGE");
        ("challenge", JStr "abc123"); ("verify_token", JStr "guess")].

Definition forged_pkg : json :=
  JObj [("s", JInt 0); ("sn", JInt 0); ("d", forged_d)].

Definition no_data_pkg : json := JObj [("s", JInt 0); ("sn", JInt 1)].

Definition no_sn_pkg : json := JObj [("s", JInt 0); ("d", event_d)].

Definition table : list json :=
  [event_pkg; pong_pkg; signal_pkg; challenge_pkg; forged_pkg; no_data_pkg; no_sn_pkg].

(** The frame, and the compressed request, that decode to entry [n] of the
    table. *)
Definition frame (n : nat) : Websocket.WSMessage :=
  {| Websocket.data := replicate n Byte.x00 |}.

Definition request (n : nat) : Webhook.Request :=
  {| Webhook.read := Return (Byte.x78 :: replicate n Byte.x00) |}.

(** A websocket receiver that has just connected, without compression. *)
Definition running : Websocket.Running :=
  {| Websocket.self := Websocket.init (cert table) false [];
     Websocket.ws_conn := {| Websocket.sent := [] |} |}.

(** A fresh webhook receiver, with compression. *)
Definition webhook : Webhook.WebhookReceiver :=
  Webhook.init (cert table) 8080 "/khl" true [].

(** The same with sequence number 42 seen at time 0. *)
Definition webhook_seen : Webhook.WebhookReceiver :=
  Webhook.sn_dup_map_set (KNum 42) 0%float webhook.

(** The same with sequence number 42 seen at the float nearest to 0.1. *)
Definition webhook_seen_early : Webhook.WebhookReceiver :=
  Webhook.sn_dup_map_set (KNum 42) 0.1%float webhook.

End Fixture.

(** ** The receive loop, frame by frame *)

Module WebsocketTrace.

Import Websocket.

Section Trace.

Variable zlib_decompress : bytes -> result bytes.

(** The sequence number a frame makes the newest: that of a package with
    signal 0, when it has one. *)
Definition frame_sn (self : WebsocketReceiver) (raw : WSMessage) : option json :=
  match decode zlib_decompress (compress self) (_cert self) (data raw) with
  | Return pkg =>
      match subscript pkg "s" with
      | Return s =>
          if eq_int s 0
          then match subscript pkg "sn" with
               | Return sn => Some sn
               | Raise _ => None
               end
          else None
      | Raise _ => None
      end
  | Raise _ => None
  end.

(** The data a frame puts on the queue: that of a package with signal 0
    and a sequence number, when it has data. *)
Definition frame_data (self : WebsocketReceiver) (raw : WSMessage) : option json :=
  match decode zlib_decompress (compress self) (_cert self) (data raw) with
  | Return pkg =>
      match frame_sn self raw with
      | Some _ =>
          match subscript pkg "d" with
          | Return d => Some d
          | Raise _ => None
          end
      | None => None
      end
  | Raise _ => None
  end.

Definition turn_sn (self : WebsocketReceiver) (t : turn) : option json :=
  match t with
  | Frame raw => frame_sn self raw
  | Beat _ => None
  end.

Definition turn_data (self : WebsocketReceiver) (t : turn) : option json :=
  match t with
  | Frame raw => frame_data self raw
  | Beat _ => None
  end.

(** The turn is a heartbeat whose send goes through. *)
Definition beat_sent (t : turn) : bool :=
  match t with
  | Frame _ => false
  | Beat ok => ok
  end.

End Trace.

End WebsocketTrace.

(** ** WebsocketReceiver.start, from the lookup of the gateway on *)

Module Gateway.

Import Websocket.

Definition API : string := "https://www.kaiheila.cn/api/v3".

(** What [start] asks of the [ClientSession]. *)
Inductive call : Type :=
| Get (url : string) (headers : list (string * string)) (params : list (string * Z))
| WsConnect (url : json).

(** The [ClientSession], seen from [start]: the JSON body that a GET
    answers with, and what a websocket connection brings until it closes,
    the frames and the moments the heartbeat task wakes up.  Either may
    raise. *)
Record ClientSession : Type := {
  get_json : string -> list (string * string) -> list (string * Z) -> result json;
  ws_connect : json -> result (list turn);
}.

(** The receiver with its gateway field and with the calls it has made. *)
Record Started : Type := {
  running : Running;
  _RAW_GATEWAY : json;
  calls : list call;
}.

(** [__init__] leaves the gateway empty. *)
Definition init (r : Running) : Started :=
  {| running := r; _RAW_GATEWAY := JStr ""; calls := [] |}.

Definition set_RAW_GATEWAY (url : json) (s : Started) : Started :=
  {| running := running s; _RAW_GATEWAY := url; calls := calls s |}.

Definition record_call (c : call) (s : Started) : Started :=
  {| running := running s; _RAW_GATEWAY := _RAW_GATEWAY s; calls := calls s ++ [c] |}.

(** Runs a computation of the connection inside [start]. *)
Definition on_running {A} (c : M Running A) : M Started A :=
  fun s =>
    let '(a, r) := c (running s) in
    (a, {| running := r; _RAW_GATEWAY := _RAW_GATEWAY s; calls := calls s |}).

Section Methods.

Variable zlib_decompress : bytes -> result bytes.

(** [start]. *)
Definition start (cs : ClientSession) : M Started unit :=
  let* cert := gets (fun s => _cert (self (running s))) in
  let headers :=
    [("Authorization", String.append "Bot " (token cert));
     ("Content-type", "application/json")] in
  let* compress := gets (fun s => compress (self (running s))) in
  let params := [("compress", if compress then 1 else 0)] in
  let url := String.append API "/gateway/index" in
  modify (record_call (Get url headers params));;
  let* res_json := lift (get_json cs url headers params) in
  let* code := lift (subscript res_json "code") in
  if negb (eq_int code 0) then ret tt
  else
    let* data := lift (subscript res_json "data") in
    let* gateway := lift (subscript data "url") in
    modify (set_RAW_GATEWAY gateway);;
    let* gateway := gets _RAW_GATEWAY in
    modify (record_call (WsConnect gateway));;
    let* turns := lift (ws_connect cs gateway) in
    on_running (run zlib_decompress turns).

End Methods.

End Gateway.

(** ** class Guild *)

Module Guild.

(** A request as the guild hands it to its gate: the function of [khl.api]
    it comes from, with the positional and the keyword arguments. *)
Record ApiCall : Type := {
  endpoint : string;
  args : list json;
  kwargs : list (string * json);
}.

(** The gate, seen from the guild: the requests it has been asked. *)
Record Gate : Type := { asked : list ApiCall }.

(** What [_roles] and [_channels] hold: None, the objects a fetch has
    built, or whatever value the keyword arguments brought. *)
Inductive held (A : Type) : Type :=
| HNone
| HRaw (v : json)
| HList (l : list A).
Arguments HNone {A}.
Arguments HRaw {A} v.
Arguments HList {A} l.

Definition is_HNone {A} (h : held A) : bool :=
  match h with
  | HNone => true
  | _ => false
  end.

(** A keyword argument as the object keeps it. *)
Definition hold {A} (v : json) : held A :=
  if is_None v then HNone else HRaw v.

(** [kwargs.get(k, default)] *)
Definition kwargs_get (kwargs : list (string * json)) (k : string) (default : json) : json :=
  match items_lookup k kwargs with
  | Some v => v
  | None => default
  end.

(** What a property gives: its value, or ValueError with its message. *)
Inductive attempt (A : Type) : Type :=
| Got (a : A)
| ValueError (msg : string).
Arguments Got {A} a.
Arguments ValueError {A} msg.

Section Objects.

(** The classes [Channel] and [Role]. *)
Context {Channel Role : Type}.

Record Guild : Type := {
  id : json;
  name : json;
  topic : json;
  master_id : json;
  icon : json;
  notify_type : json;
  region : json;
  enable_open : json;
  open_id : json;
  default_channel_id : json;
  welcome_channel_id : json;
  _roles : held Role;
  _channel_categories : list json;
  _channels : held Channel;
  _loaded : json;
  gate : option Gate;
}.

(** [_update_fields], on its keyword arguments. *)
Definition _update_fields (kwargs : list (string * json)) (self : Guild) : Guild :=
  {| id := id self; name := kwargs_get kwargs "name" (JStr "");
     topic := kwargs_get kwargs "topic" (JStr "");
     master_id := kwargs_get kwargs "master_id" (JStr "");
     icon := kwargs_get kwargs "icon" (JStr "");
     notify_type := kwargs_get kwargs "notify_type" (JInt 0);
     region := kwargs_get kwargs "region" (JStr "");
     enable_open := kwargs_get kwargs "enable_open" (JBool false);
     open_id := kwargs_get kwargs "open_id" (JStr "");
     default_channel_id := kwargs_get kwargs "default_channel_id" (JStr "");
     welcome_channel_id := kwargs_get kwargs "welcome_channel_id" (JStr "");
     _roles := hold (kwargs_get kwargs "roles" JNull);
     _channel_categories := _channel_categories self;
     _channels := hold (kwargs_get kwargs "channels" JNull); _loaded := _loaded self;
     gate := gate self |}.

(** [__init__], on its keyword arguments, with the gate that comes as
    [_gate_], if any. *)
Definition init (_gate_ : option Gate) (kwargs : list (string * json)) : Guild :=
  _update_fields kwargs
    {| id := kwargs_get kwargs "id" JNull;
       name := JNull; topic := JNull; master_id := JNull; icon := JNull;
       notify_type := JNull; region := JNull; enable_open := JNull; open_id := JNull;
       default_channel_id := JNull; welcome_channel_id := JNull;
       _roles := HNone; _channel_categories := []; _channels := HNone;
       _loaded := kwargs_get kwargs "_lazy_loaded_" (JBool false);
       gate := _gate_ |}.

Definition set_channels (channels : held Channel) (self : Guild) : Guild :=
  {| id := id self; name := name self; topic := topic self;
     master_id := master_id self; icon := icon self; notify_type := notify_type self;
     region := region self; enable_open := enable_open self; open_id := open_id self;
     default_channel_id := default_channel_id self;
     welcome_channel_id := welcome_channel_id self; _roles := _roles self;
     _channel_categories := _channel_categories self; _channels := channels;
     _loaded := _loaded self; gate := gate self |}.

Definition set_roles (roles : held Role) (self : Guild) : Guild :=
  {| id := id self; name := name self; topic := topic self;
     master_id := master_id self; icon := icon self; notify_type := notify_type self;
     region := region self; enable_open := enable_open self; open_id := open_id self;
     default_channel_id := default_channel_id self;
     welcome_channel_id := welcome_channel_id self; _roles := roles;
     _channel_categories := _channel_categories self; _channels := _channels self;
     _loaded := _loaded self; gate := gate self |}.

(** [self._channel_categories.append(i)] *)
Definition append_category (i : json) (self : Guild) : Guild :=
  {| id := id self; name := name self; topic := topic self;
     master_id := master_id self; icon := icon self; notify_type := notify_type self;
     region := region self; enable_open := enable_open self; open_id := open_id self;
     default_channel_id := default_channel_id self;
     welcome_channel_id := welcome_channel_id self; _roles := _roles self;
     _channel_categories := _channel_categories self ++ [i];
     _channels := _channels self; _loaded := _loaded self; gate := gate self |}.

Definition set_loaded (loaded : json) (self : Guild) : Guild :=
  {| id := id self; name := name self; topic := topic self;
     master_id := master_id self; icon := icon self; notify_type := notify_type self;
     region := region self; enable_open := enable_open self; open_id := open_id self;
     default_channel_id := default_channel_id self;
     welcome_channel_id := welcome_channel_id self; _roles := _roles self;
     _channel_categories := _channel_categories self; _channels := _channels self;
     _loaded := loaded; gate := gate self |}.

Definition set_gate (g : option Gate) (self : Guild) : Guild :=
  {| id := id self; name := name self; topic := topic self;
     master_id := master_id self; icon := icon self; notify_type := notify_type self;
     region := region self; enable_open := enable_open self; open_id := open_id self;
     default_channel_id := default_channel_id self;
     welcome_channel_id := welcome_channel_id self; _roles := _roles self;
     _channel_categories := _channel_categories self; _channels := _channels self;
     _loaded := _loaded self; gate := g |}.

(** Several categories appended, one after the other. *)
Definition append_categories (l : list json) (self : Guild) : Guild :=
  {| id := id self; name := name self; topic := topic self;
     master_id := master_id self; icon := icon self; notify_type := notify_type self;
     region := region self; enable_open := enable_open self; open_id := open_id self;
     default_channel_id := default_channel_id self;
     welcome_channel_id := welcome_channel_id self; _roles := _roles self;
     _channel_categories := _channel_categories self ++ l; _channels := _channels self;
     _loaded := _loaded self; gate := gate self |}.

(** [await self.gate.exec_req(c)] and [await
    self.gate.exec_pagination_req(c)], with [reply] what the gate answers
    this time: without a gate the attribute is missing; with one the
    request goes out and the answer, or what the gate raises, comes back. *)
Definition exec {A} (c : ApiCall) (reply : result A) : M Guild A :=
  let* g := gets gate in
  match g with
  | None => raise AttributeError
  | Some g =>
      modify (set_gate (Some {| asked := asked g ++ [c] |}));;
      lift reply
  end.

(** The keyword arguments a dict unpacks to: a method cannot be called
    with a keyword [self], and only a dict unpacks. *)
Definition keywords (v : json) : result (list (string * json)) :=
  match v with
  | JObj kwargs =>
      match items_lookup "self" kwargs with
      | Some _ => Raise TypeError
      | None => Return kwargs
      end
  | _ => Raise TypeError
  end.

(** [channels]: the property. *)
Definition channels (self : Guild) : attempt (held Channel) :=
  if is_HNone (_channels self)
  then ValueError "not loaded, please call `await fetch_channel_list()` first"
  else Got (_channels self).

Section Methods.

(** [v == ChannelTypes.CATEGORY], the constructor of channels
    [public_channel_factory] on the gate and the unpacked item, and the
    constructor of roles [Role] on the unpacked item. *)
Variable is_CATEGORY : json -> bool.
Variable public_channel_factory : json -> result Channel.
Variable new_Role : json -> result Role.

(** [load], with the answer of the gate. *)
Definition load (reply : result json) : M Guild unit :=
  let* id := gets id in
  let* view := exec {| endpoint := "Guild.view"; args := [id]; kwargs := [] |} reply in
  let* kwargs := lift (keywords view) in
  modify (_update_fields kwargs);;
  modify (set_loaded (JBool true)).

(** The [for i in raw_list] of [fetch_channel_list], from [channel_list]
    on. *)
Fixpoint sort_channels (raw_list : list json) (channel_list : list Channel)
    : M Guild (list Channel) :=
  match raw_list with
  | [] => ret channel_list
  | i :: rest =>
      let* ty := lift (subscript i "type") in
      if is_CATEGORY ty
      then
        modify (append_category i);;
        sort_channels rest channel_list
      else
        let* c := lift (public_channel_factory i) in
        sort_channels rest (channel_list ++ [c])
  end.

(** [fetch_channel_list], with the answer of the gate. *)
Definition fetch_channel_list (force_update : bool) (reply : result (list json))
    : M Guild (held Channel) :=
  let* cached := gets _channels in
  (if force_update || is_HNone cached
   then
     let* id := gets id in
     let* raw_list :=
       exec {| endpoint := "Channel.list"; args := []; kwargs := [("guild_id", id)] |}
         reply in
     let* channel_list := sort_channels raw_list [] in
     modify (set_channels (HList channel_list))
   else ret tt);;
  gets _channels.

(** The list of [Role] objects of [raw_list], item by item. *)
Fixpoint new_roles (raw_list : list json) : result (list Role) :=
  match raw_list with
  | [] => Return []
  | i :: rest =>
      match new_Role i with
      | Return r =>
          match new_roles rest with
          | Return rs => Return (r :: rs)
          | Raise e => Raise e
          end
      | Raise e => Raise e
      end
  end.

(** [fetch_roles], with the answer of the gate. *)
Definition fetch_roles (force_update : bool) (reply : result (list json))
    : M Guild (held Role) :=
  let* cached := gets _roles in
  (if force_update || is_HNone cached
   then
     let* id := gets id in
     let* raw_list :=
       exec {| endpoint := "GuildRole.list"; args := []; kwargs := [("guild_id", id)] |}
         reply in
     let* roles := lift (new_roles raw_list) in
     modify (set_roles (HList roles))
   else ret tt);;
  gets _roles.

(** *** Vocabulary of the statements *)

(** The item is a category: it has a type and the type is CATEGORY. *)
Definition is_category (i : json) : bool :=
  match subscript i "type" with
  | Return ty => is_CATEGORY ty
  | Raise _ => false
  end.

(** The item has a type, and is a category or makes a channel. *)
Definition sortable (i : json) : Prop :=
  exists ty, subscript i "type" = Return ty /\
    (is_CATEGORY ty = true \/ exists c, public_channel_factory i = Return c).

End Methods.

End Objects.

Arguments Guild : clear implicits.

End Guild.

(** ** More fixtures *)

Module MoreFixture.

(** A websocket receiver that has just connected, with compression. *)
Definition running_compressed : Websocket.Running :=
  {| Websocket.self := Websocket.init (Fixture.cert Fixture.table) true [];
     Websocket.ws_conn := {| Websocket.sent := [] |} |}.

(** The compressed frame that decodes to entry [n] of the table. *)
Definition frame_compressed (n : nat) : Websocket.WSMessage :=
  {| Websocket.data := Byte.x78 :: replicate n Byte.x00 |}.

(** A webhook receiver without compression, and the plain request that
    decodes to entry [n] of the table. *)
Definition webhook_plain : Webhook.WebhookReceiver :=
  Webhook.init (Fixture.cert Fixture.table) 8080 "/khl" false [].

Definition request_plain (n : nat) : Webhook.Request :=
  {| Webhook.read := Return (replicate n Byte.x00) |}.

(** A verified event whose data has no type, and a well-formed event with
    the same sequence number. *)
Definition typeless_d : json := JObj [("verify_token", JStr "secret")].

Definition typeless_pkg : json :=
  JObj [("s", JInt 0); ("sn", JInt 7); ("d", typeless_d)].

Definition retry_d : json :=
  JObj [("verify_token", JStr "secret"); ("type", JInt 1)].

Definition retry_pkg : json :=
  JObj [("s", JInt 0); ("sn", JInt 7); ("d", retry_d)].

Definition webhook_retry : Webhook.WebhookReceiver :=
  Webhook.init (Fixture.cert [typeless_pkg; retry_pkg]) 8080 "/khl" true [].

(** Sessions: one whose lookup is refused, one whose lookup gives a gateway
    that brings an event and a heartbeat, one whose lookup answers without
    a code. *)
Definition session_refused : Gateway.ClientSession :=
  {| Gateway.get_json := fun _ _ _ => Return (JObj [("code", JInt 1)]);
     Gateway.ws_connect := fun _ => Return [] |}.

Definition gateway_url : json := JStr "wss://gateway.example/ws".

Definition session_open : Gateway.ClientSession :=
  {| Gateway.get_json := fun _ _ _ =>
       Return (JObj [("code", JInt 0); ("data", JObj [("url", gateway_url)])]);
     Gateway.ws_connect := fun _ =>
       Return [Websocket.Frame (Fixture.frame 0); Websocket.Beat true] |}.

Definition session_malformed : Gateway.ClientSession :=
  {| Gateway.get_json := fun _ _ _ => Return (JObj []);
     Gateway.ws_connect := fun _ => Return [] |}.

(** A guild whose channels and roles are their unpacked items: a type of 0
    is a category, a channel needs an id, a role needs a role_id. *)
Definition is_CATEGORY (v : json) : bool := eq_int v 0.

Definition public_channel_factory (i : json) : result json :=
  match subscript i "id" with
  | Return _ => Return i
  | Raise e => Raise e
  end.

Definition new_Role (i : json) : result json :=
  match subscript i "role_id" with
  | Return _ => Return i
  | Raise e => Raise e
  end.

Definition category_item : json := JObj [("id", JStr "c1"); ("type", JInt 0)].

Definition text_item : json := JObj [("id", JStr "c2"); ("type", JInt 1)].

Definition voice_item : json := JObj [("id", JStr "c3"); ("type", JInt 2)].

Definition untyped_item : json := JObj [("id", JStr "c4")].

Definition raw_list : list json := [category_item; text_item; voice_item].

Definition guild : Guild.Guild json json :=
  Guild.init (Some {| Guild.asked := [] |}) [("id", JStr "g1"); ("name", JStr "guild")].

Definition guild_without_gate : Guild.Guild json json :=
  Guild.init None [("id", JStr "g1")].

Definition guild_fetched : Guild.Guild json json :=
  Guild.set_channels (Guild.HList [text_item]) guild.

End MoreFixture.

(** * Properties *)

(** ** The websocket receiver *)

Module WebsocketFacts.

Import Websocket.

Section Facts.

Variable zlib_decompress : bytes -> result bytes.

Local Abbreviation decode := (decode zlib_decompress).
Local Abbreviation recv := (recv zlib_decompress).
Local Abbreviation step := (step zlib_decompress).
Local Abbreviation run := (run zlib_decompress).
Local Abbreviation recv_effect := (recv_effect zlib_decompress).
Local Abbreviation signal_zero := (signal_zero zlib_decompress).
Local Abbreviation event_envelope := (event_envelope zlib_decompress).

Lemma recv_unfold raw r : recv raw r = (Return tt, recv_effect raw r).
Proof.
  unfold Websocket.recv, Websocket.recv_effect, Websocket.decode,
    try_except, bind, gets, lift, modify, ret.
  cbn.
  destruct (if compress (self r) then zlib_decompress (data raw) else Return (data raw))
    as [bs|e]; [|reflexivity].
  destruct (decode_raw (_cert (self r)) bs) as [pkg|e]; [|reflexivity].
  destruct (subscript pkg "s") as [s|e]; [|reflexivity].
  destruct (eq_int s 0); cbn; [|reflexivity].
  destruct (subscript pkg "sn") as [sn|e]; cbn; [|reflexivity].
  destruct (subscript pkg "d") as [d|e]; reflexivity.
Qed.

Lemma heartbeat_sends r :
  heartbeat true r =
    (Return tt,
     {| self := self r;
        ws_conn := {| sent := sent (ws_conn r) ++ [heartbeat_message (_NEWEST_SN (self r))] |} |}).
Proof. reflexivity. Qed.

Lemma heartbeat_send_fails r : heartbeat false r = (Return tt, r).
Proof. reflexivity. Qed.

(** A frame with signal 0, a sequence number and data: the sequence number
    is recorded and the data is put on the queue. *)
Lemma recv_effect_event raw r sn d :
  event_envelope (self r) raw sn d ->
  recv_effect raw r = on_self (pkg_queue_put d) (on_self (set_NEWEST_SN sn) r).
Proof.
  intros (pkg & (Hdec & s & Hs & Hz) & Hsn & Hd).
  unfold Websocket.recv_effect. by rewrite Hdec, Hs, Hz, Hsn, Hd.
Qed.

(** A frame either leaves the queue alone or is a signal-0 envelope whose
    data is appended. *)
Lemma recv_effect_queue raw r :
  _queue (self (recv_effect raw r)) = _queue (self r) \/
  exists sn d, event_envelope (self r) raw sn d /\
    _queue (self (recv_effect raw r)) = _queue (self r) ++ [d].
Proof.
  unfold Websocket.recv_effect.
  destruct (decode _ _ _) as [pkg|e] eqn:Hdec; [|by left].
  destruct (subscript pkg "s") as [s|e] eqn:Hs; [|by left].
  destruct (eq_int s 0) eqn:Hz; [|by left].
  destruct (subscript pkg "sn") as [sn|e] eqn:Hsn; [|by left].
  destruct (subscript pkg "d") as [d|e] eqn:Hd; [|by left].
  right. exists sn, d. split; [|reflexivity].
  exists pkg. repeat split; try done. by exists s.
Qed.

Lemma recv_effect_config raw r :
  _cert (self (recv_effect raw r)) = _cert (self r) /\
  compress (self (recv_effect raw r)) = compress (self r) /\
  ws_conn (recv_effect raw r) = ws_conn r.
Proof.
  unfold Websocket.recv_effect.
  repeat (case_match; try done).
Qed.

Lemma step_returns t r : (step t r).1 = Return tt.
Proof. destruct t as [raw|[]]; cbn; [by rewrite recv_unfold|done..]. Qed.

Lemma step_config t r :
  _cert (self (step t r).2) = _cert (self r) /\
  compress (self (step t r).2) = compress (self r).
Proof.
  destruct t as [raw|[]]; cbn; [|done..].
  rewrite recv_unfold. cbn. destruct (recv_effect_config raw r) as (? & ? & ?). done.
Qed.

Lemma run_cons t ts r : run (t :: ts) r = run ts (step t r).2.
Proof.
  cbn. unfold bind. pose proof (step_returns t r) as H.
  destruct (step t r) as [res r']. cbn in *. by subst.
Qed.

Lemma run_returns ts r : (run ts r).1 = Return tt.
Proof.
  revert r. induction ts as [|t ts IH]; intros r; [done|].
  rewrite run_cons. apply IH.
Qed.

Lemma run_app ts1 ts2 r : run (ts1 ++ ts2) r = run ts2 (run ts1 r).2.
Proof.
  revert r. induction ts1 as [|t ts1 IH]; intros r; [done|].
  rewrite <- app_comm_cons, !run_cons. apply IH.
Qed.

Lemma event_envelope_config s1 s2 raw sn d :
  _cert s1 = _cert s2 -> compress s1 = compress s2 ->
  event_envelope s1 raw sn d -> event_envelope s2 raw sn d.
Proof.
  unfold Websocket.event_envelope, Websocket.signal_zero.
  intros -> ->. done.
Qed.

Lemma step_queue t r :
  _queue (self (step t r).2) = _queue (self r) \/
  exists raw sn d, t = Frame raw /\ event_envelope (self r) raw sn d /\
    _queue (self (step t r).2) = _queue (self r) ++ [d].
Proof.
  destruct t as [raw|[]]; cbn; [|by left..].
  rewrite recv_unfold. cbn.
  destruct (recv_effect_queue raw r) as [H|(sn & d & He & H)]; [by left|].
  right. by exists raw, sn, d.
Qed.

(** Whatever the two tasks do, the queue only grows, and by the data of
    signal-0 envelopes among the frames. *)
Lemma run_queue ts r :
  exists new,
    _queue (self (run ts r).2) = _queue (self r) ++ new /\
    Forall (fun d => exists raw sn, Frame raw ∈ ts /\ event_envelope (self r) raw sn d) new.
Proof.
  revert r. induction ts as [|t ts IH]; intros r.
  { exists []. cbn. by rewrite app_nil_r. }
  rewrite run_cons.
  destruct (IH (step t r).2) as (new & Hq & Hnew).
  destruct (step_config t r) as [Hc Hz].
  assert (Forall (fun d => exists raw sn, Frame raw ∈ t :: ts /\
            event_envelope (self r) raw sn d) new) as Hnew'.
  { eapply Forall_impl; [exact Hnew|]. cbn.
    intros d (raw & sn & Hin & He). exists raw, sn. split; [by right|].
    by eapply event_envelope_config. }
  destruct (step_queue t r) as [Hs|(raw & sn & d & -> & He & Hs)].
  - exists new. by rewrite Hq, Hs.
  - exists (d :: new). split.
    + by rewrite Hq, Hs, <- app_assoc.
    + constructor; [|done]. exists raw, sn. split; [by left|done].
Qed.

(** A frame whose signal is there and is not 0 changes nothing. *)
Lemma recv_other_signal raw r pkg s :
  decode (compress (self r)) (_cert (self r)) (data raw) = Return pkg ->
  subscript pkg "s" = Return s ->
  eq_int s 0 = false ->
  recv raw r = (Return tt, r).
Proof.
  intros Hdec Hs Hz. rewrite recv_unfold. unfold Websocket.recv_effect.
  by rewrite Hdec, Hs, Hz.
Qed.

Lemma last_cons_default {A} (x : A) l a b :
  List.last (x :: l) a = List.last (x :: l) b.
Proof.
  revert x. induction l as [|y l IH]; intros x; [done|].
  change (List.last (y :: l) a = List.last (y :: l) b). apply IH.
Qed.

Lemma start_loop_events s0 frames envs :
  Forall2 (fun raw env => event_envelope s0 raw env.1 env.2) frames envs ->
  forall r, _cert (self r) = _cert s0 -> compress (self r) = compress s0 ->
    _queue (self (run (map Frame frames) r).2) = _queue (self r) ++ map snd envs /\
    _NEWEST_SN (self (run (map Frame frames) r).2) =
      List.last (map fst envs) (_NEWEST_SN (self r)) /\
    ws_conn (run (map Frame frames) r).2 = ws_conn r.
Proof.
  induction 1 as [|raw [sn d] frames envs He _ IH]; intros r Hc Hz; [by rewrite app_nil_r|].
  cbn [map]. rewrite run_cons. cbn [step Websocket.step].
  rewrite recv_unfold. cbn [snd].
  rewrite (recv_effect_event raw r sn d); [|by eapply event_envelope_config].
  destruct (IH (on_self (pkg_queue_put d) (on_self (set_NEWEST_SN sn) r))) as (Hq & Hsn & Hw);
    [done..|].
  rewrite Hq, Hsn, Hw. cbn. rewrite <- app_assoc. split; [done|]. split; [|done].
  destruct (map fst envs); [done|]. apply last_cons_default.
Qed.

Lemma step_sent t r :
  exists new,
    sent (ws_conn (step t r).2) = sent (ws_conn r) ++ new /\
    Forall (fun m => exists sn, m = heartbeat_message sn) new.
Proof.
  destruct t as [raw|[]]; cbn.
  - rewrite recv_unfold. cbn. destruct (recv_effect_config raw r) as (_ & _ & ->).
    exists []. by rewrite app_nil_r.
  - eexists. split; [done|]. constructor; [|done]. by eexists.
  - exists []. by rewrite app_nil_r.
Qed.

Lemma run_sent ts r :
  exists new,
    sent (ws_conn (run ts r).2) = sent (ws_conn r) ++ new /\
    Forall (fun m => exists sn, m = heartbeat_message sn) new.
Proof.
  revert r. induction ts as [|t ts IH]; intros r.
  { exists []. cbn. by rewrite app_nil_r. }
  rewrite run_cons.
  destruct (IH (step t r).2) as (new & Hq & Hnew).
  destruct (step_sent t r) as (new0 & Hq0 & Hnew0).
  exists (new0 ++ new). split.
  - by rewrite Hq, Hq0, <- app_assoc.
  - by apply Forall_app.
Qed.

Lemma run_failed_beats n r : run (replicate n (Beat false)) r = (Return tt, r).
Proof. induction n as [|n IH]; [done|]. cbn [replicate]. by rewrite run_cons. Qed.

Lemma last_take_lookup {A} (l : list A) n x d :
  l !! n = Some x -> List.last (take (S n) l) d = x.
Proof.
  revert n. induction l as [|y l IH]; intros n Hn; [done|].
  destruct n as [|n]; cbn in Hn.
  - injection Hn as ->. done.
  - cbn [take]. destruct l as [|z l]; [done|].
    change (List.last (take (S n) (z :: l)) d = x). by apply IH.
Qed.

Lemma lookup_map {A B} (f : A -> B) (l : list A) n :
  map f l !! n = f <$> l !! n.
Proof.
  revert n. induction l as [|x l IH]; intros [|n]; cbn; [done..|]. apply IH.
Qed.

(** C2. When every frame of a connection decodes to an envelope with
    signal 0, a sequence number and data, the receive loop runs through,
    the queue gains exactly the data of the envelopes in the order of the
    frames, and the newest sequence number ends as that of the last
    envelope; right after the frame at any position [n] it is that frame's
    sequence number, and the queue has gained the data of the frames up to
    it. *)
Theorem start_loop_enqueues_events_in_order frames envs r :
  Forall2 (fun raw env => event_envelope (self r) raw env.1 env.2) frames envs ->
  (start_loop zlib_decompress frames r).1 = Return tt /\
  _queue (self (start_loop zlib_decompress frames r).2) = _queue (self r) ++ map snd envs /\
  _NEWEST_SN (self (start_loop zlib_decompress frames r).2) =
    List.last (map fst envs) (_NEWEST_SN (self r)) /\
  forall n raw env,
    frames !! n = Some raw -> envs !! n = Some env ->
    _NEWEST_SN (self (start_loop zlib_decompress (take (S n) frames) r).2) = env.1 /\
    _queue (self (start_loop zlib_decompress (take (S n) frames) r).2) =
      _queue (self r) ++ take (S n) (map snd envs).
Proof.
  intros Hall. unfold Websocket.start_loop.
  split; [apply run_returns|].
  destruct (start_loop_events (self r) frames envs Hall r) as (Hq & Hsn & _); [done..|].
  split; [done|]. split; [done|].
  intros n raw env Hraw Henv.
  destruct (start_loop_events (self r) (take (S n) frames) (take (S n) envs)) with (r := r)
    as (Hq' & Hsn' & _); [by apply Forall2_take|done..|].
  rewrite Hq', Hsn'. split.
  - rewrite <- firstn_map. apply last_take_lookup.
    by rewrite lookup_map, Henv.
  - by rewrite firstn_map.
Qed.

(** C8. A heartbeat that goes out is the message with [s] 2 and [sn] the
    newest sequence number at that moment; every message the connection
    sends has that form; and once a frame with signal 0 and sequence number
    [sn] has been handled, the next heartbeat that goes out carries [sn],
    however many heartbeats failed to send before it. *)
Theorem heartbeat_carries_newest_sn :
  (forall r,
     heartbeat true r =
       (Return tt,
        {| self := self r;
           ws_conn :=
             {| sent := sent (ws_conn r) ++
                          [JObj [("s", JInt 2); ("sn", _NEWEST_SN (self r))]] |} |})) /\
  (forall ts r,
     exists new,
       sent (ws_conn (run ts r).2) = sent (ws_conn r) ++ new /\
       Forall (fun m => exists sn, m = JObj [("s", JInt 2); ("sn", sn)]) new) /\
  (forall raw r pkg sn n,
     signal_zero (self r) raw pkg ->
     subscript pkg "sn" = Return sn ->
     sent (ws_conn (run (Frame raw :: replicate n (Beat false) ++ [Beat true]) r).2) =
       sent (ws_conn r) ++ [JObj [("s", JInt 2); ("sn", sn)]]).
Proof.
  split; [exact heartbeat_sends|]. split; [exact run_sent|].
  intros raw r pkg sn n (Hdec & s & Hs & Hz) Hsn.
  rewrite run_cons, run_app, run_failed_beats. cbn [snd step Websocket.step run Websocket.run].
  rewrite recv_unfold. cbn [snd]. unfold bind. rewrite heartbeat_sends. cbn.
  unfold Websocket.recv_effect. rewrite Hdec, Hs, Hz, Hsn.
  by destruct (subscript pkg "d").
Qed.

End Facts.
End WebsocketFacts.

(** ** The webhook receiver *)

Module WebhookFacts.

Import Webhook.

(** The window test is the comparison of the rounded difference. *)
Lemma within_window_unfold current seen :
  within_window current seen = (current - seen <=? 600)%float.
Proof. reflexivity. Qed.

(** The dedup check on a package the ledger has a key for. *)
Lemma is_dup_keyed current req self k :
  ledger_key req = Some k ->
  _is_dup current req self =
    if match sn_dup_map self !! k with
       | Some seen => within_window current seen
       | None => false
       end
    then (Return true, self)
    else (Return false, sn_dup_map_set k current self).
Proof.
  unfold ledger_key, _is_dup, bind, lift, gets, modify, ret.
  destruct (dict_get req "sn") as [sn|e]; [|done].
  destruct (is_None sn); [done|].
  destruct (hash_key sn) as [k'|e]; [|done].
  intros [= ->]. by case_match.
Qed.

(** The dedup check on a package without such a key: the receiver stays as
    it is and the answer is not "duplicate". *)
Lemma is_dup_unkeyed current req self :
  ledger_key req = None ->
  (_is_dup current req self).2 = self /\ (_is_dup current req self).1 <> Return true.
Proof.
  unfold ledger_key, _is_dup, bind, lift, gets, modify, ret.
  destruct (dict_get req "sn") as [sn|e]; [|done].
  destruct (is_None sn); [done|].
  destruct (hash_key sn) as [k'|e]; done.
Qed.

(** The dedup check touches nothing but the ledger. *)
Lemma is_dup_frame current req self :
  _cert (_is_dup current req self).2 = _cert self /\
  compress (_is_dup current req self).2 = compress self /\
  _queue (_is_dup current req self).2 = _queue self.
Proof.
  destruct (ledger_key req) as [k|] eqn:Hk.
  - rewrite (is_dup_keyed _ _ _ _ Hk). by case_match.
  - by destruct (is_dup_unkeyed current req self Hk) as [-> _].
Qed.

(** The ledger after the dedup check: as before, or with the key of the
    package set to the current time. *)
Lemma is_dup_ledger current req self :
  sn_dup_map (_is_dup current req self).2 = sn_dup_map self \/
  exists k, ledger_key req = Some k /\
    sn_dup_map (_is_dup current req self).2 = <[k := current]> (sn_dup_map self).
Proof.
  destruct (ledger_key req) as [k|] eqn:Hk.
  - rewrite (is_dup_keyed _ _ _ _ Hk). case_match; [by left|]. right. by exists k.
  - left. by destruct (is_dup_unkeyed current req self Hk) as [-> _].
Qed.

Lemma subscript_truthy pkg k v : subscript pkg k = Return v -> truthy pkg = true.
Proof. destruct pkg as [| | | | |[|]]; cbn; try done. Qed.

Section Facts.

Variable zlib_decompress : bytes -> result bytes.

Local Abbreviation decode := (decode zlib_decompress).
Local Abbreviation on_recv := (on_recv zlib_decompress).
Local Abbreviation serve := (serve zlib_decompress).
Local Abbreviation verified := (verified zlib_decompress).

(** Opens [on_recv] on a request whose decoding [Hdec] tells. *)
Ltac open_on_recv request self Hdec :=
  unfold Webhook.on_recv, try_except, bind, lift, gets, ret;
  unfold Webhook.decode in Hdec; cbn -[_is_dup];
  destruct (read request) as [?bs|?e]; [|try done];
  destruct (if compress self then zlib_decompress _ else Return _) as [?bs|?e]; [|try done];
  cbn -[_is_dup]; try rewrite Hdec; cbn -[_is_dup].

(** Reading, decompressing or decoding fails: empty response. *)
Lemma on_recv_undecodable current request self e :
  decode (compress self) (_cert self) request = Raise e ->
  on_recv current request self = (Return web_Response, self).
Proof. intros Hdec. by open_on_recv request self Hdec. Qed.

(** The decoded package is falsy: empty response. *)
Lemma on_recv_empty current request self pkg :
  decode (compress self) (_cert self) request = Return pkg ->
  truthy pkg = false ->
  on_recv current request self = (Return web_Response, self).
Proof. intros Hdec Ht. open_on_recv request self Hdec. by rewrite Ht. Qed.

(** A verified delivery goes to the dedup check, and what follows depends
    on its answer. *)
Lemma on_recv_verified current request self pkg d :
  verified self request pkg d ->
  on_recv current request self =
    match _is_dup current pkg self with
    | (Return true, self1) => (Return web_Response, self1)
    | (Return false, self1) =>
        match subscript pkg "s" with
        | Return s =>
            if eq_int s 0
            then match subscript d "type" with
                 | Return ty =>
                     if eq_int ty 255
                     then match subscript d "channel_type" with
                          | Return ct =>
                              if eq_str ct "WEBHOOK_CHALLENGE"
                              then match subscript d "challenge" with
                                   | Return c =>
                                       (Return (web_json_response (JObj [("challenge", c)])),
                                        self1)
                                   | Raise e => (Raise e, self1)
                                   end
                              else (Return web_Response, pkg_queue_put d self1)
                          | Raise e => (Raise e, self1)
                          end
                     else (Return web_Response, pkg_queue_put d self1)
                 | Raise e => (Raise e, self1)
                 end
            else (Return web_Response, self1)
        | Raise e => (Raise e, self1)
        end
    | (Raise e, self1) => (Raise e, self1)
    end.
Proof.
  intros (Hdec & Hd & tok & Htok & Heq).
  open_on_recv request self Hdec.
  rewrite (subscript_truthy _ _ _ Hd). cbn -[_is_dup]. rewrite Hd, Htok, Heq. cbn -[_is_dup].
  destruct (_is_dup current pkg self) as [[[]|e] self1]; cbn -[_is_dup]; try done.
  destruct (subscript pkg "s") as [s|e]; cbn -[_is_dup]; [|done].
  destruct (eq_int s 0); cbn -[_is_dup]; [|done].
  destruct (subscript d "type") as [ty|e]; cbn -[_is_dup]; [|done].
  destruct (eq_int ty 255); cbn -[_is_dup]; [|done].
  destruct (subscript d "channel_type") as [ct|e]; cbn -[_is_dup]; [|done].
  destruct (eq_str ct "WEBHOOK_CHALLENGE"); cbn -[_is_dup]; [|done].
  by destruct (subscript d "challenge") as [c|e].
Qed.

(** A delivery that is not verified leaves the receiver as it is. *)
Lemma on_recv_unverified current request self :
  (forall pkg d, ~ verified self request pkg d) ->
  (on_recv current request self).2 = self.
Proof.
  intros Hnv.
  destruct (decode (compress self) (_cert self) request) as [pkg|e] eqn:Hdec;
    [|by erewrite on_recv_undecodable].
  destruct (truthy pkg) eqn:Ht; [|by erewrite on_recv_empty].
  pose proof Hdec as Hdec'.
  open_on_recv request self Hdec'. rewrite Ht. cbn -[_is_dup].
  destruct (subscript pkg "d") as [d|e] eqn:Hd; cbn -[_is_dup]; [|done].
  destruct (subscript d "verify_token") as [tok|e] eqn:Htok; cbn -[_is_dup]; [|done].
  destruct (eq_str tok (verify_token (_cert self))) eqn:Heq; cbn -[_is_dup]; [|done].
  destruct (Hnv pkg d). split; [done|]. split; [done|]. by exists tok.
Qed.

Lemma verified_dec self request :
  (exists pkg d, verified self request pkg d) \/
  (forall pkg d, ~ verified self request pkg d).
Proof.
  unfold Webhook.verified.
  destruct (decode (compress self) (_cert self) request) as [pkg|e];
    [|right; by intros ?? ([=] & _)].
  destruct (subscript pkg "d") as [d|e] eqn:Hd;
    [|right; intros ?? ([= <-] & ? & _); congruence].
  destruct (subscript d "verify_token") as [tok|e] eqn:Htok;
    [|right; intros ?? ([= <-] & ? & ? & ? & _); congruence].
  destruct (eq_str tok (verify_token (_cert self))) eqn:Heq.
  - left. exists pkg, d. split; [done|]. split; [done|]. by exists tok.
  - right. intros ?? ([= <-] & ? & ? & ? & ?). congruence.
Qed.

(** The receiver after a delivery: as before; or as the dedup check of a
    verified delivery left it; or that, with the data of a verified
    signal-0 delivery put on the queue. *)
Lemma on_recv_state current request self :
  (on_recv current request self).2 = self \/
  exists pkg d,
    verified self request pkg d /\
    ((on_recv current request self).2 = (_is_dup current pkg self).2 \/
     (signal_zero pkg /\
      (on_recv current request self).2 = pkg_queue_put d (_is_dup current pkg self).2)).
Proof.
  destruct (verified_dec self request) as [(pkg & d & Hv)|Hnv];
    [|left; by apply on_recv_unverified].
  right. exists pkg, d. split; [done|].
  rewrite (on_recv_verified _ _ _ _ _ Hv).
  destruct (_is_dup current pkg self) as [[[]|e] self1]; cbn -[_is_dup]; [by left| |by left].
  destruct (subscript pkg "s") as [s|e] eqn:Hs; [|by left].
  destruct (eq_int s 0) eqn:Hz; [|by left].
  assert (signal_zero pkg) by by exists s.
  repeat (case_match; cbn -[_is_dup]; try by left); by right.
Qed.

Lemma on_recv_config current request self :
  _cert (on_recv current request self).2 = _cert self /\
  compress (on_recv current request self).2 = compress self.
Proof.
  destruct (on_recv_state current request self) as [->|(pkg & d & _ & [->|[_ ->]])];
    [done|..]; cbn -[_is_dup]; destruct (is_dup_frame current pkg self) as (? & ? & ?); done.
Qed.

(** The queue after a delivery: as before, or with the data of a signal-0
    package appended. *)
Lemma on_recv_queue current request self :
  _queue (on_recv current request self).2 = _queue self \/
  exists pkg d,
    decode (compress self) (_cert self) request = Return pkg /\
    signal_zero pkg /\ subscript pkg "d" = Return d /\
    _queue (on_recv current request self).2 = _queue self ++ [d].
Proof.
  destruct (on_recv_state current request self)
    as [->|(pkg & d & Hv & [->|[Hz ->]])]; [by left|..];
    destruct (is_dup_frame current pkg self) as (_ & _ & Hq).
  - by left.
  - right. exists pkg, d. destruct Hv as (Hdec & Hd & _). cbn -[_is_dup]. by rewrite Hq.
Qed.

(** The ledger after a delivery: as before, or with the key of the decoded
    package set to the current time. *)
Lemma on_recv_ledger current request self :
  sn_dup_map (on_recv current request self).2 = sn_dup_map self \/
  exists pkg k,
    decode (compress self) (_cert self) request = Return pkg /\
    ledger_key pkg = Some k /\
    sn_dup_map (on_recv current request self).2 = <[k := current]> (sn_dup_map self).
Proof.
  destruct (on_recv_state current request self)
    as [->|(pkg & d & (Hdec & _) & [->|[Hz ->]])]; [by left|..]; cbn -[_is_dup];
    (destruct (is_dup_ledger current pkg self) as [->|(k & Hk & ->)];
      [by left|right; by exists pkg, k]).
Qed.

Lemma serve_cons current request rest self :
  (serve ((current, request) :: rest) self).2 =
  (serve rest (on_recv current request self).2).2.
Proof.
  cbn -[_is_dup]. destruct (Webhook.on_recv _ _ _ _) as [r self1]. cbn -[_is_dup].
  by destruct (Webhook.serve _ _ _).
Qed.

Lemma serve_config ds self :
  _cert (serve ds self).2 = _cert self /\ compress (serve ds self).2 = compress self.
Proof.
  revert self. induction ds as [|[t req] ds IH]; intros self; [done|].
  rewrite serve_cons. destruct (IH (on_recv t req self).2) as [-> ->].
  apply on_recv_config.
Qed.

(** Whatever is delivered, the queue only grows, and by the data of
    signal-0 packages among the deliveries. *)
Lemma serve_queue ds self :
  exists new,
    _queue (serve ds self).2 = _queue self ++ new /\
    Forall (fun d => exists current request pkg,
              (current, request) ∈ ds /\
              decode (compress self) (_cert self) request = Return pkg /\
              signal_zero pkg /\ subscript pkg "d" = Return d) new.
Proof.
  revert self. induction ds as [|[t req] ds IH]; intros self.
  { exists []. cbn -[_is_dup]. by rewrite app_nil_r. }
  rewrite serve_cons.
  destruct (IH (on_recv t req self).2) as (new & Hq & Hnew).
  destruct (on_recv_config t req self) as [Hc Hz]. rewrite Hc, Hz in Hnew.
  assert (Forall (fun d => exists current request pkg,
              (current, request) ∈ (t, req) :: ds /\
              decode (compress self) (_cert self) request = Return pkg /\
              signal_zero pkg /\ subscript pkg "d" = Return d) new) as Hnew'.
  { eapply Forall_impl; [exact Hnew|]. cbn -[_is_dup].
    intros d (t' & req' & pkg & Hin & H). exists t', req', pkg. split; [by right|done]. }
  destruct (on_recv_queue t req self) as [Hs|(pkg & d & Hdec & Hsz & Hd & Hs)].
  - exists new. by rewrite Hq, Hs.
  - exists (d :: new). split.
    + by rewrite Hq, Hs, <- app_assoc.
    + constructor; [|done]. exists t, req, pkg. split; [by left|done].
Qed.

(** No delivery removes an entry of the ledger. *)
Lemma on_recv_ledger_keeps current request self k :
  is_Some (sn_dup_map self !! k) ->
  is_Some (sn_dup_map (on_recv current request self).2 !! k).
Proof.
  intros Hk.
  destruct (on_recv_ledger current request self) as [->|(pkg & k' & _ & _ & ->)]; [done|].
  rewrite lookup_insert_is_Some. destruct (decide (k' = k)); auto.
Qed.

Lemma serve_ledger_keeps ds self k :
  is_Some (sn_dup_map self !! k) -> is_Some (sn_dup_map (serve ds self).2 !! k).
Proof.
  revert self. induction ds as [|[t req] ds IH]; intros self Hk; [done|].
  rewrite serve_cons. by apply IH, on_recv_ledger_keeps.
Qed.

(** Deliveries under other keys leave the entry of a key as it is. *)
Lemma serve_ledger_other ds self k :
  Forall (fun '(current, request) =>
            forall pkg, decode (compress self) (_cert self) request = Return pkg ->
                        ledger_key pkg <> Some k) ds ->
  sn_dup_map (serve ds self).2 !! k = sn_dup_map self !! k.
Proof.
  revert self. induction ds as [|[t req] ds IH]; intros self Hall; [done|].
  apply Forall_cons in Hall as [Hreq Hall].
  rewrite serve_cons.
  destruct (on_recv_config t req self) as [Hc Hz].
  rewrite IH; [|by rewrite Hc, Hz].
  destruct (on_recv_ledger t req self) as [->|(pkg & k' & Hdec & Hk' & ->)]; [done|].
  apply lookup_insert_ne. intros ->. by apply (Hreq pkg).
Qed.

(** An event delivery the dedup check lets through: its data is put on the
    queue and the response is empty. *)
Lemma on_recv_event current request self pkg d :
  verified self request pkg d ->
  (_is_dup current pkg self).1 = Return false ->
  signal_zero pkg -> event_data d ->
  on_recv current request self =
    (Return web_Response, pkg_queue_put d (_is_dup current pkg self).2).
Proof.
  intros Hv Hdup (s & Hs & Hz) (ty & Hty & Hev).
  rewrite (on_recv_verified _ _ _ _ _ Hv).
  destruct (_is_dup current pkg self) as [r self1]. cbn -[_is_dup] in *. subst r.
  rewrite Hs, Hz, Hty.
  destruct Hev as [->|(ct & -> & ->)]; [done|]. by destruct (eq_int ty 255).
Qed.

(** A delivery the dedup check calls a duplicate changes nothing. *)
Lemma on_recv_duplicate current request self pkg d :
  verified self request pkg d ->
  (_is_dup current pkg self).1 = Return true ->
  on_recv current request self = (Return web_Response, (_is_dup current pkg self).2).
Proof.
  intros Hv Hdup. rewrite (on_recv_verified _ _ _ _ _ Hv).
  destruct (_is_dup current pkg self) as [r self1]. cbn -[_is_dup] in *. by subst r.
Qed.

(** C4. The dedup check answers "duplicate" exactly when the package has a
    key, the ledger has an entry for it, and the current time minus the
    time stored there, subtracted and compared as the floats they are, is
    at most 600; for a package with a key it answers,
    and when the answer is "not a duplicate" the ledger afterwards is the
    ledger before with the key set to the current time; no entry is ever
    removed, by the check or by any run of deliveries. *)
Theorem is_dup_iff_seen_within_window current req self :
  ((_is_dup current req self).1 = Return true <->
     exists k seen,
       ledger_key req = Some k /\ sn_dup_map self !! k = Some seen /\
       (current - seen <=? 600)%float = true) /\
  (forall k, ledger_key req = Some k ->
     (_is_dup current req self).1 = Return true \/
     ((_is_dup current req self).1 = Return false /\
      sn_dup_map (_is_dup current req self).2 = <[k := current]> (sn_dup_map self))) /\
  (forall k, is_Some (sn_dup_map self !! k) ->
             is_Some (sn_dup_map (_is_dup current req self).2 !! k)) /\
  (forall deliveries k,
     is_Some (sn_dup_map self !! k) ->
     is_Some (sn_dup_map (serve deliveries self).2 !! k)).
Proof.
  split; [|split; [|split]].
  - destruct (ledger_key req) as [k|] eqn:Hk.
    + rewrite (is_dup_keyed _ _ _ _ Hk).
      destruct (sn_dup_map self !! k) as [seen|] eqn:Hm.
      * destruct (within_window current seen) eqn:Hw; cbn.
        -- split; [|done]. intros _. exists k, seen. by rewrite <- within_window_unfold.
        -- split; [done|]. intros (k' & seen' & [= <-] & Hm' & Hle).
           rewrite Hm in Hm'. injection Hm' as <-.
           rewrite <- within_window_unfold in Hle. congruence.
      * cbn. split; [done|]. intros (k' & seen' & [= <-] & Hm' & _). congruence.
    + destruct (is_dup_unkeyed current req self Hk) as [_ Hne].
      split; [done|]. by intros (k & seen & [=] & _).
  - intros k Hk. rewrite (is_dup_keyed _ _ _ _ Hk). case_match; [by left|by right].
  - intros k Hsome.
    destruct (is_dup_ledger current req self) as [->|(k' & _ & ->)]; [done|].
    rewrite lookup_insert_is_Some. destruct (decide (k' = k)); auto.
  - intros ds k. apply serve_ledger_keeps.
Qed.

(** C5. A delivery that decodes to a package whose data carries a verify
    token other than the receiver's gets the empty response, and the
    receiver, its queue and its ledger included, stays exactly as it was,
    whatever the ledger holds and whatever else the package carries. *)
Theorem token_mismatch_is_dropped current request self pkg d tok :
  decode (compress self) (_cert self) request = Return pkg ->
  subscript pkg "d" = Return d ->
  subscript d "verify_token" = Return tok ->
  eq_str tok (verify_token (_cert self)) = false ->
  on_recv current request self = (Return web_Response, self).
Proof.
  intros Hdec Hd Htok Hne.
  open_on_recv request self Hdec.
  rewrite (subscript_truthy _ _ _ Hd). cbn -[_is_dup]. by rewrite Hd, Htok, Hne.
Qed.

(** C7, amended. A delivery that decodes, passes the token check and on
    which the dedup check returns False, with signal 0 and data of type 255
    and channel type WEBHOOK_CHALLENGE carrying a challenge, is answered
    with the JSON object that echoes the challenge, and nothing is put on
    the queue. *)
Theorem challenge_is_echoed current request self pkg d c :
  verified self request pkg d ->
  (_is_dup current pkg self).1 = Return false ->
  signal_zero pkg ->
  challenge_data d c ->
  (on_recv current request self).1 =
    Return (web_json_response (JObj [("challenge", c)])) /\
  _queue (on_recv current request self).2 = _queue self.
Proof.
  intros Hv Hdup (s & Hs & Hz) ((ty & Hty & Hty') & (ct & Hct & Hct') & Hc).
  rewrite (on_recv_verified _ _ _ _ _ Hv).
  destruct (is_dup_frame current pkg self) as (_ & _ & Hq).
  destruct (_is_dup current pkg self) as [r self1]. cbn -[_is_dup] in *. subst r.
  by rewrite Hs, Hz, Hty, Hty', Hct, Hct', Hc.
Qed.

(** C9. When the dedup check answers "duplicate" it leaves the receiver,
    and so the ledger, exactly as it was; any later check therefore goes as
    if the duplicate had never come; and a later delivery of the same key
    is no duplicate once its time minus the time stored, subtracted and
    compared as floats, is no longer at most 600, however recent the
    duplicate was. *)
Theorem duplicate_leaves_ledger current req self :
  (_is_dup current req self).1 = Return true ->
  (_is_dup current req self).2 = self /\
  (forall later req',
     _is_dup later req' (_is_dup current req self).2 = _is_dup later req' self) /\
  (forall k seen later,
     ledger_key req = Some k ->
     sn_dup_map self !! k = Some seen ->
     (later - seen <=? 600)%float = false ->
     (_is_dup later req (_is_dup current req self).2).1 = Return false).
Proof.
  intros Hdup.
  assert ((_is_dup current req self).2 = self) as Hsame.
  { destruct (ledger_key req) as [k|] eqn:Hk.
    - rewrite (is_dup_keyed _ _ _ _ Hk) in *. by case_match.
    - by destruct (is_dup_unkeyed current req self Hk). }
  rewrite Hsame. split; [done|]. split; [done|].
  intros k seen later Hk Hseen Hlt.
  rewrite (is_dup_keyed _ _ _ _ Hk), Hseen.
  by rewrite within_window_unfold, Hlt.
Qed.

(** C10. For a package without the key [sn] the dedup check answers "not a
    duplicate" and leaves the receiver as it was; a delivery of such a
    package leaves the ledger as it was, and when it is a verified event it
    is put on the queue whatever the ledger holds. *)
Theorem no_sn_is_never_duplicate current items self :
  items_lookup "sn" items = None ->
  _is_dup current (JObj items) self = (Return false, self) /\
  (forall request,
     decode (compress self) (_cert self) request = Return (JObj items) ->
     sn_dup_map (on_recv current request self).2 = sn_dup_map self) /\
  (forall request d,
     verified self request (JObj items) d ->
     signal_zero (JObj items) -> event_data d ->
     on_recv current request self = (Return web_Response, pkg_queue_put d self)).
Proof.
  intros Hsn.
  assert (_is_dup current (JObj items) self = (Return false, self)) as Hdup.
  { unfold _is_dup, bind, lift. cbn. by rewrite Hsn. }
  split; [done|]. split.
  - intros request Hdec.
    destruct (on_recv_ledger current request self) as [->|(pkg & k & Hdec' & Hk & _)];
      [done|].
    rewrite Hdec in Hdec'. injection Hdec' as <-.
    unfold ledger_key in Hk. cbn in Hk. by rewrite Hsn in Hk.
  - intros request d Hv Hz He.
    rewrite (on_recv_event _ _ _ _ _ Hv); [by rewrite Hdup|by rewrite Hdup|done..].
Qed.

Lemma verified_config s1 s2 request pkg d :
  _cert s1 = _cert s2 -> compress s1 = compress s2 ->
  verified s1 request pkg d -> verified s2 request pkg d.
Proof. unfold Webhook.verified. by intros -> ->. Qed.

(** C3, amended. Take two deliveries that decode and pass the token check,
    have signal 0 and data with a type tag that is not 255, or is 255 with
    a channel type that is not WEBHOOK_CHALLENGE, and bear the same
    sequence number, an integer, a boolean or a string, so that it is a
    key of the ledger, with no entry for it within the window in the ledger
    when the first arrives and no delivery of that sequence number between
    the two; differences of times are those of floats, as the check
    computes them.  The first is put on the queue.  If the time of the
    second minus that of the first is at most 600 the second changes
    nothing, so one event has reached the queue; if it is not, the second
    is put on the queue too, so two have.  Both get the empty response. *)
Theorem same_sn_event_once_per_window t1 r1 pkg1 d1 t2 r2 pkg2 d2 mids k self :
  verified self r1 pkg1 d1 -> signal_zero pkg1 -> event_data d1 ->
  ledger_key pkg1 = Some k ->
  verified self r2 pkg2 d2 -> signal_zero pkg2 -> event_data d2 ->
  ledger_key pkg2 = Some k ->
  (forall seen, sn_dup_map self !! k = Some seen -> (t1 - seen <=? 600)%float = false) ->
  Forall (fun '(current, request) =>
            forall pkg, decode (compress self) (_cert self) request = Return pkg ->
                        ledger_key pkg <> Some k) mids ->
  let s1 := (on_recv t1 r1 self).2 in
  let s2 := (serve mids s1).2 in
  ((on_recv t1 r1 self).1 = Return web_Response /\ _queue s1 = _queue self ++ [d1]) /\
  ((t2 - t1 <=? 600)%float = true -> on_recv t2 r2 s2 = (Return web_Response, s2)) /\
  ((t2 - t1 <=? 600)%float = false ->
     (on_recv t2 r2 s2).1 = Return web_Response /\
     _queue (on_recv t2 r2 s2).2 = _queue s2 ++ [d2]).
Proof.
  intros Hv1 Hz1 He1 Hk1 Hv2 Hz2 He2 Hk2 Hfresh Hmids s1 s2.
  assert (_is_dup t1 pkg1 self = (Return false, sn_dup_map_set k t1 self)) as Hdup1.
  { rewrite (is_dup_keyed _ _ _ _ Hk1).
    destruct (sn_dup_map self !! k) as [seen|] eqn:Hm; [|done].
    by rewrite within_window_unfold, (Hfresh seen). }
  assert (on_recv t1 r1 self = (Return web_Response, pkg_queue_put d1 (sn_dup_map_set k t1 self)))
    as Hfirst.
  { rewrite (on_recv_event _ _ _ _ _ Hv1); by rewrite ?Hdup1. }
  assert (_cert s2 = _cert self /\ compress s2 = compress self) as [Hc Hz].
  { subst s2 s1. destruct (serve_config mids (on_recv t1 r1 self).2) as [-> ->].
    apply on_recv_config. }
  assert (sn_dup_map s2 !! k = Some t1) as Hseen.
  { subst s2. rewrite serve_ledger_other.
    - subst s1. rewrite Hfirst. cbn. apply lookup_insert_eq.
    - subst s1. rewrite Hfirst. cbn. exact Hmids. }
  assert (verified s2 r2 pkg2 d2) as Hv2' by by eapply verified_config.
  pose proof (is_dup_keyed t2 pkg2 s2 k Hk2) as Hdup2. rewrite Hseen in Hdup2.
  split; [|split].
  - subst s1. by rewrite Hfirst.
  - intros Hin. rewrite within_window_unfold, Hin in Hdup2.
    rewrite (on_recv_duplicate _ _ _ _ _ Hv2'); by rewrite Hdup2.
  - intros Hout. rewrite within_window_unfold, Hout in Hdup2.
    rewrite (on_recv_event _ _ _ _ _ Hv2'); by rewrite ?Hdup2.
Qed.

End Facts.

(** C6. A delivery that decodes to an envelope without data: the handler
    raises KeyError where an empty response with status 200 is promised. *)
Theorem malformed_envelope_escapes_handler :
  decode Fixture.inflate true (Fixture.cert Fixture.table) (Fixture.request 5)
    = Return Fixture.no_data_pkg /\
  (on_recv Fixture.inflate 0%float (Fixture.request 5) Fixture.webhook).1
    = Raise (KeyError "d").
Proof. split; reflexivity. Qed.

End WebhookFacts.

(** ** Both receivers *)

Module ReceiverFacts.

(** C1. Whatever frames arrive and however the heartbeat interleaves, the
    websocket queue only gains data of frames that decode to a package with
    signal 0; a frame whose signal is there and is not 0 changes nothing at
    all; and whatever is delivered to the webhook, its queue only gains
    data of deliveries that decode to a package with signal 0. *)
Theorem only_signal_zero_reaches_queue (zlib_decompress : bytes -> result bytes) :
  (forall ts r,
     exists new,
       Websocket._queue (Websocket.self (Websocket.run zlib_decompress ts r).2) =
         Websocket._queue (Websocket.self r) ++ new /\
       Forall (fun d => exists raw sn,
                 Websocket.Frame raw ∈ ts /\
                 Websocket.event_envelope zlib_decompress (Websocket.self r) raw sn d) new) /\
  (forall raw r pkg s,
     Websocket.decode zlib_decompress (Websocket.compress (Websocket.self r))
       (Websocket._cert (Websocket.self r)) (Websocket.data raw) = Return pkg ->
     subscript pkg "s" = Return s ->
     eq_int s 0 = false ->
     Websocket.recv zlib_decompress raw r = (Return tt, r)) /\
  (forall deliveries self,
     exists new,
       Webhook._queue (Webhook.serve zlib_decompress deliveries self).2 =
         Webhook._queue self ++ new /\
       Forall (fun d => exists current request pkg,
                 (current, request) ∈ deliveries /\
                 Webhook.decode zlib_decompress (Webhook.compress self) (Webhook._cert self)
                   request = Return pkg /\
                 Webhook.signal_zero pkg /\ subscript pkg "d" = Return d) new).
Proof.
  split; [|split].
  - apply WebsocketFacts.run_queue.
  - apply WebsocketFacts.recv_other_signal.
  - apply WebhookFacts.serve_queue.
Qed.

End ReceiverFacts.

(** ** The statements at concrete packages *)

Module Examples.

Import Fixture.

Lemma only_signal_zero_reaches_queue_witness :
  Websocket.decode inflate false (cert table) (Websocket.data (frame 1)) = Return pong_pkg /\
  subscript pong_pkg "s" = Return (JInt 3) /\
  eq_int (JInt 3) 0 = false /\
  Websocket.recv inflate (frame 1) running = (Return tt, running).
Proof.
  split; [reflexivity|]. split; [reflexivity|]. split; [reflexivity|].
  destruct (ReceiverFacts.only_signal_zero_reaches_queue inflate) as (_ & H & _).
  apply (H (frame 1) running pong_pkg (JInt 3)); reflexivity.
Defined.

Lemma start_loop_enqueues_events_in_order_witness :
  Forall2 (fun raw env =>
             Websocket.event_envelope inflate (Websocket.self running) raw env.1 env.2)
    [frame 0; frame 0] [(JInt 42, event_d); (JInt 42, event_d)] /\
  Websocket._queue
    (Websocket.self (Websocket.start_loop inflate [frame 0; frame 0] running).2)
    = [event_d; event_d] /\
  Websocket._NEWEST_SN
    (Websocket.self (Websocket.start_loop inflate [frame 0; frame 0] running).2)
    = JInt 42.
Proof.
  assert (Forall2 (fun raw env =>
             Websocket.event_envelope inflate (Websocket.self running) raw env.1 env.2)
    [frame 0; frame 0] [(JInt 42, event_d); (JInt 42, event_d)]) as Hall.
  { repeat constructor; exists event_pkg;
      (split; [split; [reflexivity|exists (JInt 0); split; reflexivity]|split; reflexivity]). }
  split; [exact Hall|].
  destruct (WebsocketFacts.start_loop_enqueues_events_in_order inflate _ _ running Hall)
    as (_ & Hq & Hsn & _).
  split; [exact Hq|exact Hsn].
Defined.

Lemma heartbeat_carries_newest_sn_witness :
  Websocket.signal_zero inflate (Websocket.self running) (frame 0) event_pkg /\
  subscript event_pkg "sn" = Return (JInt 42) /\
  Websocket.sent
    (Websocket.ws_conn
       (Websocket.run inflate
          [Websocket.Frame (frame 0); Websocket.Beat false; Websocket.Beat true] running).2)
    = [JObj [("s", JInt 2); ("sn", JInt 42)]].
Proof.
  assert (Websocket.signal_zero inflate (Websocket.self running) (frame 0) event_pkg) as Hz.
  { split; [reflexivity|]. exists (JInt 0). split; reflexivity. }
  split; [exact Hz|]. split; [reflexivity|].
  destruct (WebsocketFacts.heartbeat_carries_newest_sn inflate) as (_ & _ & H).
  apply (H (frame 0) running event_pkg (JInt 42) 1%nat Hz). reflexivity.
Defined.

Lemma is_dup_iff_seen_within_window_witness :
  Webhook.ledger_key event_pkg = Some (KNum 42) /\
  (Webhook._is_dup 601%float event_pkg webhook_seen).1 = Return false /\
  Webhook.sn_dup_map (Webhook._is_dup 601%float event_pkg webhook_seen).2
    = <[KNum 42 := 601%float]> (Webhook.sn_dup_map webhook_seen) /\
  (600.1 - 0.1 <=? 600)%float = true /\
  (Webhook._is_dup 600.1%float event_pkg webhook_seen_early).1 = Return true.
Proof.
  split; [reflexivity|].
  destruct (WebhookFacts.is_dup_iff_seen_within_window inflate 601%float event_pkg webhook_seen)
    as (_ & H & _).
  destruct (H (KNum 42)) as [Hdup|[Hfresh Hset]]; [reflexivity|discriminate Hdup|].
  split; [exact Hfresh|]. split; [exact Hset|]. split; [reflexivity|].
  destruct (WebhookFacts.is_dup_iff_seen_within_window inflate 600.1%float event_pkg
              webhook_seen_early) as ((_ & Hrounded) & _).
  apply Hrounded. exists (KNum 42), 0.1%float. repeat split; reflexivity.
Defined.

Lemma token_mismatch_is_dropped_witness :
  Webhook.decode inflate true (cert table) (request 4) = Return forged_pkg /\
  subscript forged_pkg "d" = Return forged_d /\
  subscript forged_d "verify_token" = Return (JStr "guess") /\
  eq_str (JStr "guess") "secret" = false /\
  Webhook.on_recv inflate 0%float (request 4) webhook = (Return Webhook.web_Response, webhook).
Proof.
  split; [reflexivity|]. split; [reflexivity|]. split; [reflexivity|]. split; [reflexivity|].
  apply (WebhookFacts.token_mismatch_is_dropped inflate 0%float (request 4) webhook
           forged_pkg forged_d (JStr "guess")); reflexivity.
Defined.

Lemma verified_event : Webhook.verified inflate webhook (request 0) event_pkg event_d.
Proof.
  split; [reflexivity|]. split; [reflexivity|]. exists (JStr "secret"). split; reflexivity.
Qed.

Lemma signal_zero_event : Webhook.signal_zero event_pkg.
Proof. exists (JInt 0). split; reflexivity. Qed.

Lemma event_data_event : Webhook.event_data event_d.
Proof. exists (JInt 1). split; [reflexivity|]. left. reflexivity. Qed.

Lemma verified_challenge :
  Webhook.verified inflate webhook (request 3) challenge_pkg challenge_d.
Proof.
  split; [reflexivity|]. split; [reflexivity|]. exists (JStr "secret"). split; reflexivity.
Qed.

Lemma signal_zero_challenge : Webhook.signal_zero challenge_pkg.
Proof. exists (JInt 0). split; reflexivity. Qed.

Lemma challenge_data_challenge : Webhook.challenge_data challenge_d (JStr "abc123").
Proof.
  split; [exists (JInt 255); split; reflexivity|].
  split; [exists (JStr "WEBHOOK_CHALLENGE"); split; reflexivity|reflexivity].
Qed.

Lemma challenge_is_echoed_witness :
  Webhook.verified inflate webhook (request 3) challenge_pkg challenge_d /\
  (Webhook._is_dup 0%float challenge_pkg webhook).1 = Return false /\
  Webhook.signal_zero challenge_pkg /\
  Webhook.challenge_data challenge_d (JStr "abc123") /\
  (Webhook.on_recv inflate 0%float (request 3) webhook).1 =
    Return (Webhook.web_json_response (JObj [("challenge", JStr "abc123")])) /\
  Webhook._queue (Webhook.on_recv inflate 0%float (request 3) webhook).2 = [].
Proof.
  split; [exact verified_challenge|]. split; [reflexivity|].
  split; [exact signal_zero_challenge|]. split; [exact challenge_data_challenge|].
  apply (WebhookFacts.challenge_is_echoed inflate 0%float (request 3) webhook
           challenge_pkg challenge_d (JStr "abc123"));
    [exact verified_challenge|reflexivity|exact signal_zero_challenge
    |exact challenge_data_challenge].
Defined.

(** C7 as stated fails.  A delivery with signal 0 whose data has type 255,
    channel type WEBHOOK_CHALLENGE and the challenge abc123, but a verify
    token that is not the receiver's, gets the empty response, not the
    echo; and so does the rightful challenge when it comes a second time
    within the window. *)
Lemma challenge_echo_counterexample :
  (Webhook.decode inflate true (cert table) (request 4) = Return forged_pkg /\
   Webhook.signal_zero forged_pkg /\
   subscript forged_pkg "d" = Return forged_d /\
   Webhook.challenge_data forged_d (JStr "abc123") /\
   (Webhook.on_recv inflate 0%float (request 4) webhook).1 = Return Webhook.web_Response) /\
  (Webhook.decode inflate true (cert table) (request 3) = Return challenge_pkg /\
   Webhook.signal_zero challenge_pkg /\
   subscript challenge_pkg "d" = Return challenge_d /\
   Webhook.challenge_data challenge_d (JStr "abc123") /\
   (Webhook.serve inflate [(0%float, request 3); (30%float, request 3)] webhook).1 =
     [Return (Webhook.web_json_response (JObj [("challenge", JStr "abc123")]));
      Return Webhook.web_Response]) /\
  Webhook.web_Response <> Webhook.web_json_response (JObj [("challenge", JStr "abc123")]).
Proof.
  split; [|split]; [| |discriminate].
  - split; [reflexivity|]. split; [exists (JInt 0); split; reflexivity|].
    split; [reflexivity|]. split; [|reflexivity].
    split; [exists (JInt 255); split; reflexivity|].
    split; [exists (JStr "WEBHOOK_CHALLENGE"); split; reflexivity|reflexivity].
  - split; [reflexivity|]. split; [exact signal_zero_challenge|].
    split; [reflexivity|]. split; [exact challenge_data_challenge|reflexivity].
Qed.

Lemma same_sn_event_once_per_window_witness :
  (Webhook.on_recv inflate 600%float (request 0)
     (Webhook.serve inflate [(5%float, request 3)]
        (Webhook.on_recv inflate 0%float (request 0) webhook).2).2).1
    = Return Webhook.web_Response /\
  Webhook._queue
    (Webhook.on_recv inflate 600%float (request 0)
       (Webhook.serve inflate [(5%float, request 3)]
          (Webhook.on_recv inflate 0%float (request 0) webhook).2).2).2
    = [event_d] /\
  Webhook._queue
    (Webhook.on_recv inflate 600.5%float (request 0)
       (Webhook.serve inflate [(5%float, request 3)]
          (Webhook.on_recv inflate 0%float (request 0) webhook).2).2).2
    = [event_d; event_d].
Proof.
  assert (forall seen : float,
            Webhook.sn_dup_map webhook !! KNum 42 = Some seen ->
            (0 - seen <=? 600)%float = false) as Hfresh by (intros seen [=]).
  assert (Forall (fun '(current, request) =>
            forall pkg,
              Webhook.decode inflate (Webhook.compress webhook) (Webhook._cert webhook)
                request = Return pkg ->
              Webhook.ledger_key pkg <> Some (KNum 42)) [(5%float, request 3)]) as Hmids.
  { repeat constructor. intros pkg [= <-]. discriminate. }
  destruct (WebhookFacts.same_sn_event_once_per_window inflate
              0%float (request 0) event_pkg event_d 600%float (request 0) event_pkg event_d
              [(5%float, request 3)] (KNum 42) webhook
              verified_event signal_zero_event event_data_event eq_refl
              verified_event signal_zero_event event_data_event eq_refl
              Hfresh Hmids) as (_ & Hin & _).
  destruct (WebhookFacts.same_sn_event_once_per_window inflate
              0%float (request 0) event_pkg event_d 600.5%float (request 0) event_pkg event_d
              [(5%float, request 3)] (KNum 42) webhook
              verified_event signal_zero_event event_data_event eq_refl
              verified_event signal_zero_event event_data_event eq_refl
              Hfresh Hmids) as (_ & _ & Hout).
  rewrite Hin by reflexivity.
  split; [reflexivity|]. split; [reflexivity|].
  destruct Hout as [_ ->]; [reflexivity|reflexivity].
Defined.

(** C3 as stated fails.  Two deliveries that decode and pass the token
    check, with the same sequence number 42 and signal 1: no event reaches
    the queue, 10 apart or 700 apart.  Neither does one from two
    challenges 700 apart, nor from two events 100 apart when 42 was seen
    100 before the first. *)
Lemma same_sn_counterexample :
  (exists d, Webhook.verified inflate webhook (request 2) signal_pkg d) /\
  Webhook.ledger_key signal_pkg = Some (KNum 42) /\
  Webhook._queue
    (Webhook.serve inflate [(0%float, request 2); (10%float, request 2)] webhook).2 = [] /\
  Webhook._queue
    (Webhook.serve inflate [(0%float, request 2); (700%float, request 2)] webhook).2 = [] /\
  Webhook._queue
    (Webhook.serve inflate [(0%float, request 3); (700%float, request 3)] webhook).2 = [] /\
  Webhook._queue
    (Webhook.serve inflate [(100%float, request 0); (200%float, request 0)] webhook_seen).2 = [].
Proof.
  split.
  { eexists. split; [reflexivity|]. split; [reflexivity|].
    exists (JStr "secret"). split; reflexivity. }
  repeat split; reflexivity.
Qed.

Lemma duplicate_leaves_ledger_witness :
  (Webhook._is_dup 300%float event_pkg webhook_seen).1 = Return true /\
  (Webhook._is_dup 300%float event_pkg webhook_seen).2 = webhook_seen /\
  (Webhook._is_dup 601%float event_pkg
     (Webhook._is_dup 300%float event_pkg webhook_seen).2).1 = Return false.
Proof.
  split; [reflexivity|].
  destruct (WebhookFacts.duplicate_leaves_ledger 300%float event_pkg webhook_seen eq_refl)
    as (Hsame & _ & Hlater).
  split; [exact Hsame|].
  apply (Hlater (KNum 42) 0%float 601%float); reflexivity.
Defined.

Lemma no_sn_is_never_duplicate_witness :
  items_lookup "sn" [("s", JInt 0); ("d", event_d)] = None /\
  Webhook._is_dup 0%float no_sn_pkg webhook = (Return false, webhook) /\
  Webhook._queue
    (Webhook.serve inflate [(0%float, request 6); (1%float, request 6)] webhook).2
    = [event_d; event_d].
Proof.
  split; [reflexivity|].
  destruct (WebhookFacts.no_sn_is_never_duplicate inflate 0%float
              [("s", JInt 0); ("d", event_d)] webhook eq_refl) as (Hdup & _ & _).
  split; [exact Hdup|reflexivity].
Defined.

End Examples.

(** ** More on the websocket receiver *)

Module WebsocketMore.

Import Websocket WebsocketTrace.

Section Facts.

Variable zlib_decompress : bytes -> result bytes.

Local Abbreviation decode := (decode zlib_decompress).
Local Abbreviation recv := (recv zlib_decompress).
Local Abbreviation step := (step zlib_decompress).
Local Abbreviation run := (run zlib_decompress).
Local Abbreviation recv_effect := (recv_effect zlib_decompress).
Local Abbreviation frame_sn := (frame_sn zlib_decompress).
Local Abbreviation frame_data := (frame_data zlib_decompress).
Local Abbreviation turn_sn := (turn_sn zlib_decompress).
Local Abbreviation turn_data := (turn_data zlib_decompress).

Lemma run_config ts r :
  _cert (self (run ts r).2) = _cert (self r) /\
  compress (self (run ts r).2) = compress (self r).
Proof.
  revert r. induction ts as [|t ts IH]; intros r; [done|].
  rewrite WebsocketFacts.run_cons. destruct (IH (step t r).2) as [-> ->].
  apply WebsocketFacts.step_config.
Qed.

(** X1. No frame and no failed send ends the loop: whatever the turns, the
    run returns normally, and the certificate and the compression flag of
    the receiver are what they were. *)
Theorem run_never_raises ts r :
  (run ts r).1 = Return tt /\
  _cert (self (run ts r).2) = _cert (self r) /\
  compress (self (run ts r).2) = compress (self r).
Proof. split; [apply WebsocketFacts.run_returns|apply run_config]. Qed.

Lemma turn_config s1 s2 t :
  _cert s1 = _cert s2 -> compress s1 = compress s2 ->
  turn_sn s1 t = turn_sn s2 t /\ turn_data s1 t = turn_data s2 t.
Proof.
  intros Hc Hz. destruct t as [raw|ok]; [|done]. cbn.
  unfold WebsocketTrace.frame_data, WebsocketTrace.frame_sn. by rewrite Hc, Hz.
Qed.

(** One turn: the queue gains the data of the turn, if any, and the newest
    sequence number becomes that of the turn, if any. *)
Lemma step_exact t r :
  _queue (self (step t r).2) = _queue (self r) ++ option_list (turn_data (self r) t) /\
  _NEWEST_SN (self (step t r).2) = default (_NEWEST_SN (self r)) (turn_sn (self r) t).
Proof.
  destruct t as [raw|[]]; cbn; [|by rewrite app_nil_r..].
  rewrite WebsocketFacts.recv_unfold. cbn.
  unfold WebsocketTrace.frame_data, WebsocketTrace.frame_sn, Websocket.recv_effect.
  destruct (decode _ _ _) as [pkg|e]; [|by rewrite app_nil_r].
  destruct (subscript pkg "s") as [s|e]; [|by rewrite app_nil_r].
  destruct (eq_int s 0); [|by rewrite app_nil_r].
  destruct (subscript pkg "sn") as [sn|e]; [|by rewrite app_nil_r].
  destruct (subscript pkg "d") as [d|e]; [done|by rewrite app_nil_r].
Qed.

Lemma last_cons_shift {A} (x : A) l d : List.last (x :: l) d = List.last l x.
Proof.
  destruct l as [|y l]; [done|].
  change (List.last (y :: l) d = List.last (y :: l) x).
  apply WebsocketFacts.last_cons_default.
Qed.

Lemma run_exact_at s0 ts :
  forall r, _cert (self r) = _cert s0 -> compress (self r) = compress s0 ->
    _queue (self (run ts r).2) = _queue (self r) ++ omap (turn_data s0) ts /\
    _NEWEST_SN (self (run ts r).2) =
      List.last (omap (turn_sn s0) ts) (_NEWEST_SN (self r)).
Proof.
  induction ts as [|t ts IH]; intros r Hc Hz; [by rewrite app_nil_r|].
  rewrite WebsocketFacts.run_cons.
  destruct (WebsocketFacts.step_config zlib_decompress t r) as [Hc' Hz'].
  destruct (IH (step t r).2) as [Hq Hsn]; [congruence..|].
  destruct (step_exact t r) as [Hq1 Hsn1].
  destruct (turn_config (self r) s0 t Hc Hz) as [Esn Ed].
  rewrite Hq, Hsn, Hq1, Hsn1, Esn, Ed. cbn [omap list_omap].
  split.
  - destruct (turn_data s0 t); cbn; by rewrite <- app_assoc.
  - destruct (turn_sn s0 t) as [x|]; [|done].
    symmetry. apply (last_cons_shift x).
Qed.

(** X2. Whatever the turns, the queue gains exactly the data of the frames
    that decode to a package with signal 0, a sequence number and data, in
    the order of the frames, and the newest sequence number ends as that of
    the last frame with signal 0 and a sequence number, or stays if there
    is none. *)
Theorem run_exact ts r :
  _queue (self (run ts r).2) = _queue (self r) ++ omap (turn_data (self r)) ts /\
  _NEWEST_SN (self (run ts r).2) =
    List.last (omap (turn_sn (self r)) ts) (_NEWEST_SN (self r)).
Proof. by apply run_exact_at. Qed.

Lemma step_sent_count t r :
  self (step t r).2 = self r \/ ws_conn (step t r).2 = ws_conn r.
Proof.
  destruct t as [raw|[]]; cbn; [|by left..].
  rewrite WebsocketFacts.recv_unfold. cbn. right.
  by destruct (WebsocketFacts.recv_effect_config zlib_decompress raw r) as (_ & _ & ->).
Qed.

(** X3. Only heartbeats send and only frames change the receiver: the
    connection has sent one more message for each heartbeat whose send went
    through, a heartbeat leaves the receiver as it was, and a frame leaves
    the connection as it was. *)
Theorem one_message_per_heartbeat ts r :
  length (sent (ws_conn (run ts r).2)) =
    (length (sent (ws_conn r)) + length (filter (fun t => beat_sent t = true) ts))%nat /\
  (forall ok, self (heartbeat ok r).2 = self r) /\
  (forall raw, ws_conn (recv raw r).2 = ws_conn r).
Proof.
  split; [|split].
  - revert r. induction ts as [|t ts IH]; intros r; [cbn; lia|].
    rewrite WebsocketFacts.run_cons, IH.
    destruct t as [raw|[]]; cbn [step Websocket.step].
    + rewrite WebsocketFacts.recv_unfold. cbn [snd].
      destruct (WebsocketFacts.recv_effect_config zlib_decompress raw r) as (_ & _ & ->).
      rewrite filter_cons_False; [done|]. cbn. done.
    + rewrite WebsocketFacts.heartbeat_sends. cbn [snd ws_conn sent].
      rewrite filter_cons_True by done. rewrite length_app. cbn. lia.
    + rewrite WebsocketFacts.heartbeat_send_fails. cbn [snd].
      rewrite filter_cons_False; [done|]. cbn. done.
  - by intros [].
  - intros raw. rewrite WebsocketFacts.recv_unfold. cbn.
    by destruct (WebsocketFacts.recv_effect_config zlib_decompress raw r) as (_ & _ & ->).
Qed.

(** X4. A frame with signal 0 and a sequence number but no data: nothing is
    put on the queue, yet the sequence number is recorded, and the next
    heartbeat that goes out acknowledges it. *)
Theorem frame_without_data_is_acknowledged raw r pkg sn e :
  signal_zero zlib_decompress (self r) raw pkg ->
  subscript pkg "sn" = Return sn ->
  subscript pkg "d" = Raise e ->
  recv raw r = (Return tt, on_self (set_NEWEST_SN sn) r) /\
  _queue (self (run [Frame raw; Beat true] r).2) = _queue (self r) /\
  sent (ws_conn (run [Frame raw; Beat true] r).2) =
    sent (ws_conn r) ++ [JObj [("s", JInt 2); ("sn", sn)]].
Proof.
  intros (Hdec & s & Hs & Hz) Hsn Hd.
  assert (recv raw r = (Return tt, on_self (set_NEWEST_SN sn) r)) as Hrecv.
  { rewrite WebsocketFacts.recv_unfold. unfold Websocket.recv_effect.
    by rewrite Hdec, Hs, Hz, Hsn, Hd. }
  split; [done|].
  rewrite !WebsocketFacts.run_cons. cbn [step Websocket.step]. rewrite Hrecv. cbn [snd].
  rewrite WebsocketFacts.heartbeat_sends. by cbn.
Qed.

End Facts.

(** X5. Compression is only a matter of the bytes: a receiver that
    does not compress never looks at [zlib.decompress], and a receiver that
    compresses does with a frame what one that does not compress does with
    the decompressed frame: each records the same sequence number as its
    newest, if the frame brings one, and puts the same data on its queue,
    if the frame brings some. *)
Theorem compression_is_transparent zlib_decompress raw_c raw_u r_c r_u :
  compress (self r_c) = true ->
  compress (self r_u) = false ->
  _cert (self r_c) = _cert (self r_u) ->
  zlib_decompress (data raw_c) = Return (data raw_u) ->
  (forall other, Websocket.recv other raw_u r_u = Websocket.recv zlib_decompress raw_u r_u) /\
  WebsocketTrace.frame_sn zlib_decompress (self r_c) raw_c =
    WebsocketTrace.frame_sn zlib_decompress (self r_u) raw_u /\
  WebsocketTrace.frame_data zlib_decompress (self r_c) raw_c =
    WebsocketTrace.frame_data zlib_decompress (self r_u) raw_u /\
  _queue (self (Websocket.recv zlib_decompress raw_c r_c).2) =
    _queue (self r_c) ++ option_list (WebsocketTrace.frame_data zlib_decompress (self r_u) raw_u) /\
  _queue (self (Websocket.recv zlib_decompress raw_u r_u).2) =
    _queue (self r_u) ++ option_list (WebsocketTrace.frame_data zlib_decompress (self r_u) raw_u) /\
  _NEWEST_SN (self (Websocket.recv zlib_decompress raw_c r_c).2) =
    default (_NEWEST_SN (self r_c)) (WebsocketTrace.frame_sn zlib_decompress (self r_u) raw_u) /\
  _NEWEST_SN (self (Websocket.recv zlib_decompress raw_u r_u).2) =
    default (_NEWEST_SN (self r_u)) (WebsocketTrace.frame_sn zlib_decompress (self r_u) raw_u).
Proof.
  intros Hc Hu Hcert Hz.
  assert (Websocket.decode zlib_decompress (compress (self r_c)) (_cert (self r_c)) (data raw_c)
          = Websocket.decode zlib_decompress (compress (self r_u)) (_cert (self r_u)) (data raw_u))
    as Hdec.
  { unfold Websocket.decode. by rewrite Hc, Hu, Hz, Hcert. }
  assert (WebsocketTrace.frame_sn zlib_decompress (self r_c) raw_c =
          WebsocketTrace.frame_sn zlib_decompress (self r_u) raw_u) as Hsn.
  { unfold WebsocketTrace.frame_sn. by rewrite Hdec. }
  assert (WebsocketTrace.frame_data zlib_decompress (self r_c) raw_c =
          WebsocketTrace.frame_data zlib_decompress (self r_u) raw_u) as Hd.
  { unfold WebsocketTrace.frame_data. by rewrite Hdec, Hsn. }
  destruct (step_exact zlib_decompress (Frame raw_c) r_c) as [Hqc Hnc].
  destruct (step_exact zlib_decompress (Frame raw_u) r_u) as [Hqu Hnu].
  cbn [Websocket.step WebsocketTrace.turn_data WebsocketTrace.turn_sn] in *.
  split; [|split; [done|split; [done|split; [|split; [done|split; [|done]]]]]].
  - intros other. rewrite !WebsocketFacts.recv_unfold. f_equal.
    unfold Websocket.recv_effect, Websocket.decode. by rewrite Hu.
  - by rewrite <- Hd.
  - by rewrite <- Hsn.
Qed.

End WebsocketMore.

(** ** WebsocketReceiver.start *)

Module GatewayFacts.

Import Websocket Gateway.

Section Facts.

Variable zlib_decompress : bytes -> result bytes.

Local Abbreviation start := (start zlib_decompress).

(** The lookup of the gateway that [start] makes for a receiver. *)
Local Abbreviation lookup_url := (String.append API "/gateway/index").
Local Abbreviation lookup_headers s :=
  [("Authorization", String.append "Bot " (token (_cert (self (running s)))));
   ("Content-type", "application/json")].
Local Abbreviation lookup_params s :=
  [("compress", if compress (self (running s)) then 1 else 0)].
Local Abbreviation lookup s := (Get lookup_url (lookup_headers s) (lookup_params s)).

(** X6. When the lookup answers with a code that is not 0, [start]
    returns without connecting: its one call is the GET of the gateway
    index with the bot token and the compression flag, and the receiver,
    its gateway field included, is as before. *)
Theorem start_refused cs s res_json code :
  get_json cs lookup_url (lookup_headers s) (lookup_params s) = Return res_json ->
  subscript res_json "code" = Return code ->
  eq_int code 0 = false ->
  start cs s = (Return tt, record_call (lookup s) s).
Proof.
  intros Hget Hcode Hne.
  unfold Gateway.start, bind, gets, modify, lift, ret. cbn.
  cbn in Hget. rewrite Hget. cbn. rewrite Hcode. cbn. by rewrite Hne.
Qed.

(** X7. When the lookup answers code 0 with a url and the connection to it
    opens, [start] records the url as its gateway, has made the GET and
    then the connection to that url, and leaves the receiver as the run of
    the turns of the connection leaves it; it returns when the connection
    closes. *)
Theorem start_connected cs s res_json code data url turns :
  get_json cs lookup_url (lookup_headers s) (lookup_params s) = Return res_json ->
  subscript res_json "code" = Return code ->
  eq_int code 0 = true ->
  subscript res_json "data" = Return data ->
  subscript data "url" = Return url ->
  ws_connect cs url = Return turns ->
  start cs s =
    (Return tt,
     {| running := (run zlib_decompress turns (running s)).2;
        _RAW_GATEWAY := url;
        calls := calls s ++ [lookup s; WsConnect url] |}).
Proof.
  intros Hget Hcode Hz Hdata Hurl Hconn.
  unfold Gateway.start, bind, gets, modify, lift, ret, on_running. cbn.
  cbn in Hget. rewrite Hget. cbn. rewrite Hcode. cbn. rewrite Hz. cbn.
  rewrite Hdata. cbn. rewrite Hurl. cbn. rewrite Hconn. cbn.
  pose proof (WebsocketFacts.run_returns zlib_decompress turns (running s)) as Hret.
  destruct (run zlib_decompress turns (running s)) as [res r']. cbn in *. subst res.
  by rewrite <- app_assoc.
Qed.

(** X8. [start] raises only before a frame is handled: when it raises, the
    receiver and its connection are as before; and it connects at most
    once, after the GET. *)
Theorem start_raises_before_receiving cs s e :
  (start cs s).1 = Raise e ->
  running (start cs s).2 = running s /\
  (calls (start cs s).2 = calls s ++ [lookup s] \/
   calls (start cs s).2 = calls s ++ [lookup s; WsConnect (_RAW_GATEWAY (start cs s).2)]).
Proof.
  unfold Gateway.start, bind, gets, modify, lift, ret, on_running. cbn.
  destruct (get_json cs _ _ _) as [res_json|e1]; cbn; [|by intros; split; [|left]].
  destruct (subscript res_json "code") as [code|e1]; cbn; [|by intros; split; [|left]].
  destruct (eq_int code 0); cbn; [|done].
  destruct (subscript res_json "data") as [data|e1]; cbn; [|by intros; split; [|left]].
  destruct (subscript data "url") as [url|e1]; cbn; [|by intros; split; [|left]].
  destruct (ws_connect cs url) as [turns|e1]; cbn.
  - pose proof (WebsocketFacts.run_returns zlib_decompress turns (running s)) as Hret.
    destruct (run zlib_decompress turns (running s)) as [res r']. cbn in *. by subst res.
  - intros _. split; [done|]. right. by rewrite <- app_assoc.
Qed.

End Facts.

End GatewayFacts.

(** ** More on the webhook receiver *)

Module WebhookMore.

Import Webhook.

Section Facts.

Variable zlib_decompress : bytes -> result bytes.

Local Abbreviation decode := (decode zlib_decompress).
Local Abbreviation on_recv := (on_recv zlib_decompress).
Local Abbreviation serve := (serve zlib_decompress).
Local Abbreviation verified := (verified zlib_decompress).

(** A delivery that is not verified gets the empty response or raises. *)
Lemma unverified_response current request self :
  (forall pkg d, ~ verified self request pkg d) ->
  (on_recv current request self).1 = Return web_Response \/
  exists e, (on_recv current request self).1 = Raise e.
Proof.
  intros Hnv.
  destruct (decode (compress self) (_cert self) request) as [pkg|e] eqn:Hdec;
    [|left; by erewrite WebhookFacts.on_recv_undecodable].
  destruct (truthy pkg) eqn:Ht; [|left; by erewrite WebhookFacts.on_recv_empty].
  pose proof Hdec as Hdec'.
  unfold Webhook.on_recv, try_except, bind, lift, gets, ret.
  unfold Webhook.decode in Hdec'. cbn -[_is_dup].
  destruct (read request) as [bs|e]; [|done].
  destruct (if compress self then zlib_decompress _ else Return _) as [bs'|e]; [|done].
  cbn -[_is_dup]. rewrite Hdec'. cbn -[_is_dup]. rewrite Ht. cbn -[_is_dup].
  destruct (subscript pkg "d") as [d|e] eqn:Hd; cbn -[_is_dup]; [|right; by eexists].
  destruct (subscript d "verify_token") as [tok|e] eqn:Htok; cbn -[_is_dup];
    [|right; by eexists].
  destruct (eq_str tok (verify_token (_cert self))) eqn:Heq; cbn -[_is_dup]; [|by left].
  destruct (Hnv pkg d). split; [done|]. split; [done|]. by exists tok.
Qed.

(** X9. A delivery that does not decode to a package whose data carries
    the receiver's verify token changes nothing, whether it is answered or
    raises, and is never answered with a body; so no run of such deliveries
    changes the queue or the ledger. *)
Theorem unverified_deliveries_change_nothing deliveries self :
  Forall (fun '(current, request) => forall pkg d, ~ verified self request pkg d)
    deliveries ->
  (serve deliveries self).2 = self /\
  Forall (fun r => r = Return web_Response \/ exists e, r = Raise e)
    (serve deliveries self).1.
Proof.
  induction deliveries as [|[t req] ds IH]; intros Hall; [done|].
  apply Forall_cons in Hall as [Hreq Hall]. destruct (IH Hall) as [Hs Hr].
  pose proof (WebhookFacts.on_recv_unverified zlib_decompress t req self Hreq) as Hsame.
  pose proof (unverified_response t req self Hreq) as Hresp.
  cbn. destruct (Webhook.on_recv _ t req self) as [r self1]. cbn in Hsame, Hresp. subst self1.
  destruct (Webhook.serve _ ds self) as [rs self2]. cbn in *. subst self2.
  split; [done|]. by constructor.
Qed.

(** What a verified delivery leaves behind when the dedup check lets it
    through: the receiver after the check, with or without the data on the
    queue. *)
Lemma verified_state current request self pkg d :
  verified self request pkg d ->
  (on_recv current request self).2 = (_is_dup current pkg self).2 \/
  ((on_recv current request self).1 = Return web_Response /\
   (on_recv current request self).2 = pkg_queue_put d (_is_dup current pkg self).2).
Proof.
  intros Hv. rewrite (WebhookFacts.on_recv_verified _ _ _ _ _ _ Hv).
  destruct (_is_dup current pkg self) as [[[]|e] self1]; cbn -[_is_dup]; [by left| |by left].
  repeat (case_match; cbn -[_is_dup]; try by left); by right.
Qed.

(** X10. A verified delivery whose sequence number the dedup check lets
    through is recorded in the ledger at the current time whatever comes of
    it afterwards: an event, a challenge, another signal, or an exception. *)
Theorem verified_delivery_records_sn current request self pkg d k :
  verified self request pkg d ->
  ledger_key pkg = Some k ->
  (_is_dup current pkg self).1 = Return false ->
  sn_dup_map (on_recv current request self).2 = <[k := current]> (sn_dup_map self).
Proof.
  intros Hv Hk Hdup.
  assert (sn_dup_map (_is_dup current pkg self).2 = <[k := current]> (sn_dup_map self)) as Hm.
  { rewrite (WebhookFacts.is_dup_keyed _ _ _ _ Hk) in *. by case_match. }
  by destruct (verified_state current request self pkg d Hv) as [->|[_ ->]].
Qed.

(** X11. A verified delivery that raises has used up its sequence number:
    nothing was put on the queue, and a delivery with the same sequence
    number whose time minus that of the first, subtracted and compared as
    floats, is at most 600 is answered empty and changes nothing, however
    well formed it is. *)
Theorem raising_delivery_uses_up_sn t1 r1 pkg1 d1 t2 r2 pkg2 d2 k self e :
  verified self r1 pkg1 d1 -> ledger_key pkg1 = Some k ->
  (_is_dup t1 pkg1 self).1 = Return false ->
  (on_recv t1 r1 self).1 = Raise e ->
  verified self r2 pkg2 d2 -> ledger_key pkg2 = Some k ->
  (t2 - t1 <=? 600)%float = true ->
  _queue (on_recv t1 r1 self).2 = _queue self /\
  on_recv t2 r2 (on_recv t1 r1 self).2 = (Return web_Response, (on_recv t1 r1 self).2).
Proof.
  intros Hv1 Hk1 Hdup1 Hraise Hv2 Hk2 Hin.
  assert (_is_dup t1 pkg1 self = (Return false, sn_dup_map_set k t1 self)) as Hd1.
  { rewrite (WebhookFacts.is_dup_keyed _ _ _ _ Hk1) in *. by case_match. }
  assert ((on_recv t1 r1 self).2 = sn_dup_map_set k t1 self) as Hs1.
  { destruct (verified_state t1 r1 self pkg1 d1 Hv1) as [->|[Hret _]]; [by rewrite Hd1|].
    congruence. }
  rewrite Hs1. split; [done|].
  assert (verified (sn_dup_map_set k t1 self) r2 pkg2 d2) as Hv2'
    by by eapply WebhookFacts.verified_config.
  assert (_is_dup t2 pkg2 (sn_dup_map_set k t1 self)
          = (Return true, sn_dup_map_set k t1 self)) as Hd2.
  { rewrite (WebhookFacts.is_dup_keyed _ _ _ _ Hk2). cbn [sn_dup_map sn_dup_map_set].
    rewrite lookup_insert_eq, WebhookFacts.within_window_unfold. by rewrite Hin. }
  rewrite (WebhookFacts.on_recv_duplicate _ _ _ _ _ _ Hv2'); by rewrite Hd2.
Qed.

(** X12. Whenever the handler answers, the status is 200; there is a body
    only for a verified challenge with signal 0 that the dedup check lets
    through, the body is then the echo of the challenge, and nothing was
    put on the queue. *)
Theorem response_is_200 current request self resp :
  (on_recv current request self).1 = Return resp ->
  status resp = 200 /\
  (body resp = None \/
   exists pkg d c,
     verified self request pkg d /\ (_is_dup current pkg self).1 = Return false /\
     signal_zero pkg /\ challenge_data d c /\
     body resp = Some (JObj [("challenge", c)]) /\
     _queue (on_recv current request self).2 = _queue self).
Proof.
  destruct (WebhookFacts.verified_dec zlib_decompress self request)
    as [(pkg & d & Hv)|Hnv].
  2: { destruct (unverified_response current request self Hnv) as [->|[e ->]]; [|done].
       intros [= <-]. split; [done|by left]. }
  destruct (WebhookFacts.is_dup_frame current pkg self) as (_ & _ & Hq).
  rewrite (WebhookFacts.on_recv_verified _ _ _ _ _ _ Hv).
  destruct (_is_dup current pkg self) as [[[]|e] self1] eqn:Hdup; cbn -[_is_dup] in *;
    [by intros [= <-]; split; [|left]| |done].
  destruct (subscript pkg "s") as [s|e] eqn:Hs; [|done].
  destruct (eq_int s 0) eqn:Hz; [|by intros [= <-]; split; [|left]].
  destruct (subscript d "type") as [ty|e] eqn:Hty; [|done].
  destruct (eq_int ty 255) eqn:Hty'; [|by intros [= <-]; split; [|left]].
  destruct (subscript d "channel_type") as [ct|e] eqn:Hct; [|done].
  destruct (eq_str ct "WEBHOOK_CHALLENGE") eqn:Hct'; [|by intros [= <-]; split; [|left]].
  destruct (subscript d "challenge") as [c|e] eqn:Hc; [|done].
  intros [= <-]. split; [done|]. right. exists pkg, d, c.
  split; [done|]. split; [by rewrite Hdup|]. split; [by exists s|].
  split; [|done]. split; [by exists ty|]. split; [by exists ct|done].
Qed.

(** X13. An exception leaves the handler only after the body has been read,
    decompressed and decoded to a package that is not empty, and whenever
    one does, nothing has been put on the queue. *)
Theorem raises_only_after_decoding current request self e :
  (on_recv current request self).1 = Raise e ->
  (exists pkg, decode (compress self) (_cert self) request = Return pkg /\ truthy pkg = true) /\
  _queue (on_recv current request self).2 = _queue self.
Proof.
  intros Hraise. split.
  - destruct (decode (compress self) (_cert self) request) as [pkg|e'] eqn:Hdec.
    + exists pkg. split; [done|]. destruct (truthy pkg) eqn:Ht; [done|].
      by rewrite (WebhookFacts.on_recv_empty _ _ _ _ pkg Hdec Ht) in Hraise.
    + by rewrite (WebhookFacts.on_recv_undecodable _ _ _ _ e' Hdec) in Hraise.
  - destruct (WebhookFacts.verified_dec zlib_decompress self request)
      as [(pkg & d & Hv)|Hnv]; [|by rewrite WebhookFacts.on_recv_unverified].
    destruct (WebhookFacts.is_dup_frame current pkg self) as (_ & _ & Hq).
    destruct (verified_state current request self pkg d Hv) as [->|[Hret _]]; [done|].
    congruence.
Qed.

(** X14. A sequence number that is null counts as none: the dedup check
    answers "not a duplicate" and records nothing.  One that is a list or
    an object cannot be a key: the check raises TypeError and records
    nothing, and so does the handler on a verified delivery of it. *)
Theorem unusable_sn current items self sn :
  items_lookup "sn" items = Some sn ->
  (sn = JNull -> _is_dup current (JObj items) self = (Return false, self)) /\
  ((exists l, sn = JArr l) \/ (exists o, sn = JObj o) ->
   _is_dup current (JObj items) self = (Raise TypeError, self) /\
   forall request d,
     verified self request (JObj items) d ->
     on_recv current request self = (Raise TypeError, self)).
Proof.
  intros Hsn. split.
  - intros ->. unfold _is_dup, bind, lift. cbn. by rewrite Hsn.
  - intros Hbad.
    assert (_is_dup current (JObj items) self = (Raise TypeError, self)) as Hdup.
    { unfold _is_dup, bind, lift. cbn. rewrite Hsn.
      by destruct Hbad as [[l ->]|[o ->]]. }
    split; [done|]. intros request d Hv.
    by rewrite (WebhookFacts.on_recv_verified _ _ _ _ _ _ Hv), Hdup.
Qed.

(** The difference of a finite time with itself is within the window. *)
Lemma within_window_now current :
  PrimFloat.is_finite current = true -> within_window current current = true.
Proof.
  intros Hfin. unfold within_window.
  rewrite FloatAxioms.leb_spec, FloatAxioms.sub_spec.
  unfold PrimFloat.is_finite, PrimFloat.is_nan, PrimFloat.is_infinity in Hfin.
  rewrite !FloatAxioms.eqb_spec, FloatAxioms.abs_spec in Hfin.
  destruct (Prim2SF current) as [s|s| |s m e].
  - destruct s; vm_compute; reflexivity.
  - destruct s; vm_compute in Hfin; discriminate Hfin.
  - vm_compute in Hfin; discriminate Hfin.
  - unfold SF64sub, SFsub. cbv zeta. rewrite Z.sub_diag. vm_compute. reflexivity.
Qed.

(** X15. What the dedup check records it finds again.  Checked a second
    time at the same instant, the time being finite, a package with a key
    is a duplicate and the second check changes nothing; and after a check
    that answered "not a duplicate" at one time, any package with the same
    key is a duplicate at another time exactly when that time minus the
    first, subtracted and compared as floats, is at most 600. *)
Theorem recheck_finds_entry current req self k :
  ledger_key req = Some k ->
  (PrimFloat.is_finite current = true ->
   _is_dup current req (_is_dup current req self).2 =
     (Return true, (_is_dup current req self).2)) /\
  ((_is_dup current req self).1 = Return false ->
   forall later req',
     ledger_key req' = Some k ->
     ((_is_dup later req' (_is_dup current req self).2).1 = Return true <->
      (later - current <=? 600)%float = true)).
Proof.
  intros Hk. rewrite (WebhookFacts.is_dup_keyed current req self k Hk).
  destruct (sn_dup_map self !! k) as [seen|] eqn:Hm.
  - destruct (within_window current seen) eqn:Hw; cbn -[_is_dup within_window].
    + split; [|done]. intros _.
      by rewrite (WebhookFacts.is_dup_keyed _ _ _ _ Hk), Hm, Hw.
    + split.
      * intros Hnow%within_window_now.
        rewrite (WebhookFacts.is_dup_keyed _ _ _ _ Hk). cbn -[_is_dup within_window].
        by rewrite lookup_insert_eq, Hnow.
      * intros _ later req' Hk'. rewrite (WebhookFacts.is_dup_keyed _ _ _ _ Hk'). cbn -[_is_dup within_window].
        rewrite lookup_insert_eq, <- WebhookFacts.within_window_unfold.
        by destruct (within_window later current).
  - cbn -[_is_dup within_window]. split.
    + intros Hnow%within_window_now.
      rewrite (WebhookFacts.is_dup_keyed _ _ _ _ Hk). cbn -[_is_dup within_window].
      by rewrite lookup_insert_eq, Hnow.
    + intros _ later req' Hk'. rewrite (WebhookFacts.is_dup_keyed _ _ _ _ Hk'). cbn -[_is_dup within_window].
      rewrite lookup_insert_eq, <- WebhookFacts.within_window_unfold.
      by destruct (within_window later current).
Qed.

Lemma on_recv_ledger_size current request self :
  (size (sn_dup_map (on_recv current request self).2) <= S (size (sn_dup_map self)))%nat.
Proof.
  destruct (WebhookFacts.on_recv_ledger zlib_decompress current request self)
    as [->|(pkg & k & _ & _ & ->)]; [lia|].
  rewrite map_size_insert. destruct (sn_dup_map self !! k); cbn; lia.
Qed.

(** X16. The ledger grows by at most one entry for each delivery. *)
Theorem ledger_grows_one_per_delivery deliveries self :
  (size (sn_dup_map (serve deliveries self).2)
   <= size (sn_dup_map self) + length deliveries)%nat.
Proof.
  revert self. induction deliveries as [|[t req] ds IH]; intros self; [cbn; lia|].
  rewrite WebhookFacts.serve_cons.
  pose proof (IH (on_recv t req self).2) as H1.
  pose proof (on_recv_ledger_size t req self) as H2.
  cbn [length]. lia.
Qed.

(** The dedup check looks at the ledger only. *)
Lemma is_dup_ledger_only current req s1 s2 :
  sn_dup_map s1 = sn_dup_map s2 ->
  (_is_dup current req s1).1 = (_is_dup current req s2).1 /\
  sn_dup_map (_is_dup current req s1).2 = sn_dup_map (_is_dup current req s2).2.
Proof.
  intros Hm. unfold _is_dup, bind, lift, gets, modify, ret.
  destruct (dict_get req "sn") as [sn|e]; [|done].
  destruct (is_None sn); [done|].
  destruct (hash_key sn) as [k|e]; cbn; [|done].
  rewrite Hm. case_match; cbn; [done|]. by rewrite Hm.
Qed.

(** X17. Compression is only a matter of the body: a receiver that
    compresses answers a compressed body, and changes its ledger and its
    queue, as a receiver that does not compress does with the decompressed
    body. *)
Theorem webhook_compression_is_transparent current req_c req_u s_c s_u body_c body_u :
  compress s_c = true -> compress s_u = false ->
  _cert s_c = _cert s_u ->
  sn_dup_map s_c = sn_dup_map s_u ->
  _queue s_c = _queue s_u ->
  read req_c = Return body_c -> read req_u = Return body_u ->
  zlib_decompress body_c = Return body_u ->
  (on_recv current req_c s_c).1 = (on_recv current req_u s_u).1 /\
  sn_dup_map (on_recv current req_c s_c).2 = sn_dup_map (on_recv current req_u s_u).2 /\
  _queue (on_recv current req_c s_c).2 = _queue (on_recv current req_u s_u).2.
Proof.
  intros Hc Hu Hcert Hm Hq Hrc Hru Hz.
  unfold Webhook.on_recv, try_except, bind, lift, gets, ret. cbn -[_is_dup].
  rewrite Hrc, Hru, Hc, Hu, Hz, Hcert. cbn -[_is_dup].
  destruct (decode_raw (_cert s_u) body_u) as [pkg|e]; cbn -[_is_dup]; [|done].
  destruct (truthy pkg); cbn -[_is_dup]; [|done].
  destruct (subscript pkg "d") as [d|e]; cbn -[_is_dup]; [|done].
  destruct (subscript d "verify_token") as [tok|e]; cbn -[_is_dup]; [|done].
  rewrite Hcert.
  destruct (eq_str tok (verify_token (_cert s_u))); cbn -[_is_dup]; [|done].
  destruct (is_dup_ledger_only current pkg s_c s_u Hm) as [Hr Hm'].
  destruct (WebhookFacts.is_dup_frame current pkg s_c) as (_ & _ & Hq1).
  destruct (WebhookFacts.is_dup_frame current pkg s_u) as (_ & _ & Hq2).
  destruct (_is_dup current pkg s_c) as [r1 s1].
  destruct (_is_dup current pkg s_u) as [r2 s2].
  cbn -[_is_dup] in *. subst r2.
  assert (_queue s1 = _queue s2) as Hq' by congruence.
  destruct r1 as [[]|e]; cbn -[_is_dup]; [done| |done].
  destruct (subscript pkg "s") as [s|e]; cbn -[_is_dup]; [|done].
  destruct (eq_int s 0); cbn -[_is_dup]; [|done].
  destruct (subscript d "type") as [ty|e]; cbn -[_is_dup]; [|done].
  destruct (eq_int ty 255); cbn -[_is_dup]; [|by rewrite Hq'].
  destruct (subscript d "channel_type") as [ct|e]; cbn -[_is_dup]; [|done].
  destruct (eq_str ct "WEBHOOK_CHALLENGE"); cbn -[_is_dup]; [|by rewrite Hq'].
  by destruct (subscript d "challenge").
Qed.

End Facts.

End WebhookMore.

(** ** The guild *)

Module GuildFacts.

Import Guild.

Section Facts.

Context {Channel Role : Type}.
Variable is_CATEGORY : json -> bool.
Variable public_channel_factory : json -> result Channel.
Variable new_Role : json -> result Role.

Local Abbreviation Guild := (Guild Channel Role).
Local Abbreviation sort_channels := (sort_channels is_CATEGORY public_channel_factory).
Local Abbreviation fetch_channel_list :=
  (fetch_channel_list is_CATEGORY public_channel_factory).
Local Abbreviation fetch_roles := (fetch_roles (Channel := Channel) new_Role).
Local Abbreviation is_category := (is_category is_CATEGORY).
Local Abbreviation sortable := (sortable is_CATEGORY public_channel_factory).
Local Abbreviation channel_list_call self :=
  {| endpoint := "Channel.list"; args := []; kwargs := [("guild_id", id self)] |}.

Lemma append_categories_nil (self : Guild) : append_categories [] self = self.
Proof. destruct self. unfold append_categories. cbn. by rewrite app_nil_r. Qed.

Lemma append_categories_cons i l (self : Guild) :
  append_categories l (append_category i self) = append_categories (i :: l) self.
Proof. unfold append_categories, append_category. cbn. by rewrite <- app_assoc. Qed.

Lemma sort_channels_cons i rest acc (self : Guild) :
  sort_channels (i :: rest) acc self =
    match subscript i "type" with
    | Return ty =>
        if is_CATEGORY ty
        then sort_channels rest acc (append_category i self)
        else match public_channel_factory i with
             | Return c => sort_channels rest (acc ++ [c]) self
             | Raise e => (Raise e, self)
             end
    | Raise e => (Raise e, self)
    end.
Proof.
  cbn [Guild.sort_channels]. unfold bind at 1, lift at 1.
  destruct (subscript i "type") as [ty|e]; [|done].
  destruct (is_CATEGORY ty); [done|].
  unfold bind at 1, lift at 1. by destruct (public_channel_factory i).
Qed.

(** The loop over a list whose items all sort: the categories are appended
    to those of the guild and the channels to the list, in order. *)
Lemma sort_channels_sortable raw_list :
  Forall sortable raw_list ->
  forall acc (self : Guild),
  exists cl,
    Forall2 (fun i c => public_channel_factory i = Return c)
      (List.filter (fun i => negb (is_category i)) raw_list) cl /\
    sort_channels raw_list acc self =
      (Return (acc ++ cl), append_categories (List.filter is_category raw_list) self).
Proof.
  induction 1 as [|i raw_list (ty & Hty & Hi) _ IH]; intros acc self.
  { exists []. split; [constructor|]. cbn. by rewrite app_nil_r, append_categories_nil. }
  assert (is_category i = is_CATEGORY ty) as Hcat by (unfold Guild.is_category; by rewrite Hty).
  rewrite sort_channels_cons, Hty. cbn [List.filter]. rewrite Hcat.
  destruct (is_CATEGORY ty); cbn [negb].
  - destruct (IH acc (append_category i self)) as (cl & Hcl & ->).
    exists cl. split; [done|]. by rewrite append_categories_cons.
  - destruct Hi as [?|[c Hc]]; [done|]. rewrite Hc.
    destruct (IH (acc ++ [c]) self) as (cl & Hcl & ->).
    exists (c :: cl). split; [by constructor|]. by rewrite <- app_assoc.
Qed.

(** Whatever the list, and whether the loop ends or raises, it leaves the
    guild as it was but for the categories, which only gain. *)
Lemma sort_channels_frame raw_list :
  forall acc (self : Guild),
  exists more, (sort_channels raw_list acc self).2 = append_categories more self.
Proof.
  induction raw_list as [|i raw_list IH]; intros acc self.
  { exists []. by rewrite append_categories_nil. }
  rewrite sort_channels_cons.
  destruct (subscript i "type") as [ty|e]; [|exists []; by rewrite append_categories_nil].
  destruct (is_CATEGORY ty).
  - destruct (IH acc (append_category i self)) as (more & ->).
    exists (i :: more). by rewrite append_categories_cons.
  - destruct (public_channel_factory i) as [c|e];
      [|exists []; by rewrite append_categories_nil].
    apply IH.
Qed.

(** [fetch_channel_list] when it asks the gate and the gate answers. *)
Lemma fetch_channel_list_asks force_update raw_list (self : Guild) g :
  force_update || is_HNone (_channels self) = true ->
  gate self = Some g ->
  fetch_channel_list force_update (Return raw_list) self =
    match
      sort_channels raw_list []
        (set_gate (Some {| asked := asked g ++ [channel_list_call self] |}) self)
    with
    | (Return cl, self') => (Return (HList cl), set_channels (HList cl) self')
    | (Raise e, self') => (Raise e, self')
    end.
Proof.
  intros Hask Hg.
  unfold Guild.fetch_channel_list, exec, bind, gets, modify, lift, raise. cbn.
  rewrite Hask, Hg. cbn.
  by destruct (sort_channels raw_list [] _) as [[cl|e] self'].
Qed.

(** X18. With [force_update] off and channels at hand, [fetch_channel_list]
    returns them as they are: the gate is not asked, its answer plays no
    part, and the guild is left as it was. *)
Theorem fetch_channel_list_cached reply (self : Guild) :
  is_HNone (_channels self) = false ->
  fetch_channel_list false reply self = (Return (_channels self), self).
Proof.
  intros Hc. unfold Guild.fetch_channel_list, bind, gets, ret. cbn. by rewrite Hc.
Qed.

(** X19. When [fetch_channel_list] asks (forced, or nothing at hand) and
    every item of the answer has a type and is a category or makes a
    channel, it asks the gate once for the channel list of the guild, puts
    the categories, in order, after those the guild already has, and
    replaces the channels by those made of the other items, in order, which
    it returns. *)
Theorem fetch_channel_list_sorts force_update raw_list (self : Guild) g :
  force_update || is_HNone (_channels self) = true ->
  gate self = Some g ->
  Forall sortable raw_list ->
  exists cl,
    Forall2 (fun i c => public_channel_factory i = Return c)
      (List.filter (fun i => negb (is_category i)) raw_list) cl /\
    fetch_channel_list force_update (Return raw_list) self =
      (Return (HList cl),
       set_channels (HList cl)
         (append_categories (List.filter is_category raw_list)
            (set_gate (Some {| asked := asked g ++ [channel_list_call self] |}) self))).
Proof.
  intros Hask Hg Hall.
  destruct (sort_channels_sortable raw_list Hall []
              (set_gate (Some {| asked := asked g ++ [channel_list_call self] |}) self))
    as (cl & Hcl & Hsort).
  exists cl. split; [done|].
  by rewrite (fetch_channel_list_asks _ _ _ g Hask Hg), Hsort.
Qed.

(** X20. The categories are never cleared: fetching the same list twice
    with [force_update] leaves every category of the list twice among the
    categories of the guild, while the channels are those of one fetch. *)
Theorem categories_accumulate raw_list (self : Guild) g :
  gate self = Some g ->
  Forall sortable raw_list ->
  exists cl,
    (fetch_channel_list true (Return raw_list) self).1 = Return (HList cl) /\
    let once := (fetch_channel_list true (Return raw_list) self).2 in
    let twice := (fetch_channel_list true (Return raw_list) once).2 in
    _channels twice = HList cl /\
    _channels once = HList cl /\
    _channel_categories once =
      _channel_categories self ++ List.filter is_category raw_list /\
    _channel_categories twice =
      _channel_categories self ++ List.filter is_category raw_list
        ++ List.filter is_category raw_list.
Proof.
  intros Hg Hall.
  destruct (sort_channels_sortable raw_list Hall []
              (set_gate (Some {| asked := asked g ++ [channel_list_call self] |}) self))
    as (cl & Hcl & Hsort).
  exists cl.
  rewrite (fetch_channel_list_asks true raw_list self g eq_refl Hg), Hsort. cbn [fst snd].
  split; [done|]. cbn zeta.
  set (once := set_channels _ _).
  assert (gate once = Some {| asked := asked g ++ [channel_list_call self] |}) as Hg1 by done.
  destruct (sort_channels_sortable raw_list Hall []
              (set_gate (Some {| asked := (asked g ++ [channel_list_call self])
                                            ++ [channel_list_call once] |}) once))
    as (cl' & Hcl' & Hsort').
  rewrite (fetch_channel_list_asks true raw_list once _ eq_refl Hg1). cbn [asked].
  rewrite Hsort'. cbn [snd].
  assert (cl' = cl) as ->.
  { clear -Hcl Hcl'. revert cl' Hcl'.
    induction Hcl as [|i c l cl Hc _ IH]; intros cl' Hcl'; inversion Hcl'; subst; [done|].
    f_equal; [congruence|by apply IH]. }
  subst once. cbn. by rewrite <- app_assoc.
Qed.

(** The loop raises at the first item that does not sort: the items
    before it all sort, their categories have been appended, and the
    exception is that of the item, raised by its missing type or by the
    constructor of its channel. *)
Lemma sort_channels_raises raw_list :
  forall acc (self self' : Guild) e,
    sort_channels raw_list acc self = (Raise e, self') ->
    exists before bad rest,
      raw_list = before ++ bad :: rest /\
      Forall sortable before /\
      (subscript bad "type" = Raise e \/
       exists ty, subscript bad "type" = Return ty /\ is_CATEGORY ty = false /\
                  public_channel_factory bad = Raise e) /\
      self' = append_categories (List.filter is_category before) self.
Proof.
  induction raw_list as [|i raw_list IH]; intros acc self self' e; [done|].
  rewrite sort_channels_cons.
  destruct (subscript i "type") as [ty|e'] eqn:Hty.
  2: { intros [= <- <-]. exists [], i, raw_list.
       split; [done|]. split; [constructor|]. split; [by left|].
       by rewrite append_categories_nil. }
  assert (is_category i = is_CATEGORY ty) as Hcat by (unfold Guild.is_category; by rewrite Hty).
  destruct (is_CATEGORY ty) eqn:Hc.
  - intros (before & bad & rest & -> & Hall & Hbad & ->)%IH.
    exists (i :: before), bad, rest. split; [done|].
    split; [constructor; [exists ty; split; [done|by left]|done]|]. split; [done|].
    cbn [List.filter]. rewrite Hcat. by rewrite append_categories_cons.
  - destruct (public_channel_factory i) as [c|e'] eqn:Hf.
    + intros (before & bad & rest & -> & Hall & Hbad & ->)%IH.
      exists (i :: before), bad, rest. split; [done|].
      split; [constructor; [exists ty; split; [done|right; by exists c]|done]|].
      split; [done|]. cbn [List.filter]. by rewrite Hcat.
    + intros [= <- <-]. exists [], i, raw_list.
      split; [done|]. split; [constructor|]. split; [right; by exists ty|].
      by rewrite append_categories_nil.
Qed.

(** X21. When [fetch_channel_list] raises, the channels of the guild are
    what they were.  Without a gate it raises AttributeError and the guild
    is as it was; when the gate raises, the categories are as they were;
    and when the loop raises, it does so at the first item that has no
    type or whose channel cannot be made, and the categories among the
    items before that one have been appended to those of the guild, in
    order, and stay. *)
Theorem fetch_channel_list_failure force_update reply (self : Guild) e :
  (fetch_channel_list force_update reply self).1 = Raise e ->
  _channels (fetch_channel_list force_update reply self).2 = _channels self /\
  ((gate self = None /\ e = AttributeError /\
    (fetch_channel_list force_update reply self).2 = self) \/
   (exists g,
      gate self = Some g /\ reply = Raise e /\
      _channel_categories (fetch_channel_list force_update reply self).2 =
        _channel_categories self) \/
   (exists g raw_list before bad rest,
      gate self = Some g /\ reply = Return raw_list /\
      raw_list = before ++ bad :: rest /\
      Forall sortable before /\
      (subscript bad "type" = Raise e \/
       exists ty, subscript bad "type" = Return ty /\ is_CATEGORY ty = false /\
                  public_channel_factory bad = Raise e) /\
      _channel_categories (fetch_channel_list force_update reply self).2 =
        _channel_categories self ++ List.filter is_category before)).
Proof.
  unfold Guild.fetch_channel_list, exec, bind, gets, modify, lift, raise. cbn.
  destruct (force_update || is_HNone (_channels self)); cbn; [|done].
  destruct (gate self) as [g|] eqn:Hg; cbn.
  2: { intros [= <-]. split; [done|]. by left. }
  destruct reply as [raw_list|e']; cbn.
  2: { intros [= <-]. split; [done|]. right. left. by exists g. }
  destruct (sort_channels raw_list [] _) as [[cl|e'] self'] eqn:Hsort; cbn; [done|].
  intros [= <-].
  apply sort_channels_raises in Hsort as (before & bad & rest & -> & Hall & Hbad & ->).
  split; [done|]. right. right. by exists g, (before ++ bad :: rest), before, bad, rest.
Qed.

(** X22. The property [channels] raises ValueError exactly when the guild
    holds no channels; and once [fetch_channel_list] has returned, whatever
    its arguments and even with an empty list, [channels] gives what it
    returned. *)
Theorem channels_after_fetch force_update reply (self : Guild) :
  ((exists msg, channels self = ValueError msg) <-> _channels self = HNone) /\
  (forall v,
     (fetch_channel_list force_update reply self).1 = Return v ->
     channels (fetch_channel_list force_update reply self).2 = Got v).
Proof.
  split.
  - unfold channels. destruct (_channels self); cbn; split; try done.
    + by eexists.
    + by intros [msg ?].
    + by intros [msg ?].
  - intros v.
    unfold Guild.fetch_channel_list, exec, bind, gets, modify, lift, raise. cbn.
    destruct (force_update || is_HNone (_channels self)) eqn:Hask; cbn.
    + destruct (gate self) as [g|]; cbn; [|done].
      destruct reply as [raw_list|e']; cbn; [|done].
      destruct (sort_channels raw_list [] _) as [[cl|e'] self']; cbn; [|done].
      by intros [= <-].
    + intros [= <-]. apply orb_false_elim in Hask as [_ Hc].
      unfold channels. by rewrite Hc.
Qed.

Lemma new_roles_length raw_list rs :
  new_roles new_Role raw_list = Return rs -> length rs = length raw_list.
Proof.
  revert rs. induction raw_list as [|i raw_list IH]; intros rs; cbn.
  - by intros [= <-].
  - destruct (new_Role i) as [r|e]; [|done].
    destruct (new_roles new_Role raw_list) as [rs'|e]; [|done].
    intros [= <-]. cbn. f_equal. by apply IH.
Qed.

(** X23. [fetch_roles] with [force_update] off and roles at hand returns
    them without asking.  When it raises, the roles are what they were;
    when it returns after asking, the roles are the objects made of the
    items of the answer, one for each, and they are what it returns.  It
    never touches the channels or the categories. *)
Theorem fetch_roles_replaces force_update reply (self : Guild) :
  (is_HNone (_roles self) = false ->
   fetch_roles false reply self = (Return (_roles self), self)) /\
  (forall e,
     (fetch_roles force_update reply self).1 = Raise e ->
     _roles (fetch_roles force_update reply self).2 = _roles self) /\
  (forall v,
     (fetch_roles force_update reply self).1 = Return v ->
     force_update || is_HNone (_roles self) = true ->
     exists raw_list rs,
       reply = Return raw_list /\ new_roles new_Role raw_list = Return rs /\
       length rs = length raw_list /\
       v = HList rs /\ _roles (fetch_roles force_update reply self).2 = HList rs) /\
  _channels (fetch_roles force_update reply self).2 = _channels self /\
  _channel_categories (fetch_roles force_update reply self).2 = _channel_categories self.
Proof.
  split.
  { intros Hc. unfold Guild.fetch_roles, bind, gets, ret. cbn. by rewrite Hc. }
  unfold Guild.fetch_roles, exec, bind, gets, modify, lift, raise. cbn.
  destruct (force_update || is_HNone (_roles self)); cbn; [|done].
  destruct (gate self) as [g|]; cbn; [|done].
  destruct reply as [raw_list|e']; cbn; [|done].
  destruct (new_roles new_Role raw_list) as [rs|e'] eqn:Hrs; cbn; [|done].
  split; [done|]. split; [|done].
  intros v [= <-] _. exists raw_list, rs.
  split; [done|]. split; [done|]. split; [by apply new_roles_length|done].
Qed.

Local Abbreviation view_call self :=
  {| endpoint := "Guild.view"; args := [id self]; kwargs := [] |}.


(** X25. When [load] raises, because there is no gate, the gate raises, or
    the answer is not a dict or has a key [self], the guild is not marked
    loaded and nothing of it changes but the list of what the gate was
    asked. *)
Theorem load_failure reply (self : Guild) e :
  (load reply self).1 = Raise e ->
  (load reply self).2 = set_gate (gate (load reply self).2) self /\
  (gate self = None -> e = AttributeError /\ (load reply self).2 = self) /\
  (forall g, gate self = Some g ->
     gate (load reply self).2 = Some {| asked := asked g ++ [view_call self] |}).
Proof.
  assert (forall (s : Guild), set_gate (gate s) s = s) as Hid by by intros [].
  unfold Guild.load, exec, bind, gets, modify, lift, raise. cbn.
  destruct (gate self) as [g|] eqn:Hg; cbn.
  2: { intros [= <-]. split; [by rewrite Hid|]. done. }
  destruct reply as [view|e']; cbn.
  2: { intros _. split; [done|]. split; [done|]. by intros ? [= <-]. }
  destruct (keywords view) as [keys|e']; cbn; [done|].
  intros _. split; [done|]. split; [done|]. by intros ? [= <-].
Qed.

End Facts.

End GuildFacts.

(** ** The further statements at concrete inputs *)

Module MoreExamples.

Import Fixture MoreFixture.

Lemma frame_without_data_is_acknowledged_witness :
  Websocket.signal_zero inflate (Websocket.self running) (frame 5) no_data_pkg /\
  subscript no_data_pkg "sn" = Return (JInt 1) /\
  subscript no_data_pkg "d" = Raise (KeyError "d") /\
  Websocket._queue
    (Websocket.self
       (Websocket.run inflate [Websocket.Frame (frame 5); Websocket.Beat true] running).2)
    = [] /\
  Websocket.sent
    (Websocket.ws_conn
       (Websocket.run inflate [Websocket.Frame (frame 5); Websocket.Beat true] running).2)
    = [JObj [("s", JInt 2); ("sn", JInt 1)]].
Proof.
  assert (Websocket.signal_zero inflate (Websocket.self running) (frame 5) no_data_pkg) as Hz.
  { split; [reflexivity|]. exists (JInt 0). split; reflexivity. }
  split; [exact Hz|]. split; [reflexivity|]. split; [reflexivity|].
  destruct (WebsocketMore.frame_without_data_is_acknowledged inflate (frame 5) running
              no_data_pkg (JInt 1) (KeyError "d") Hz eq_refl eq_refl) as (_ & Hq & Hs).
  split; [exact Hq|exact Hs].
Defined.

Lemma compression_is_transparent_witness :
  inflate (Websocket.data (frame_compressed 0)) = Return (Websocket.data (frame 0)) /\
  Websocket._queue
    (Websocket.self (Websocket.recv inflate (frame_compressed 0) running_compressed).2)
    = [event_d] /\
  Websocket._queue (Websocket.self (Websocket.recv inflate (frame 0) running).2)
    = [event_d].
Proof.
  split; [reflexivity|].
  destruct (WebsocketMore.compression_is_transparent inflate
              (frame_compressed 0) (frame 0) running_compressed running
              eq_refl eq_refl eq_refl eq_refl) as (_ & _ & _ & Hc & Hu & _).
  split; [exact Hc|exact Hu].
Defined.

Lemma start_refused_witness :
  Gateway.start inflate session_refused (Gateway.init running) =
    (Return tt,
     Gateway.record_call
       (Gateway.Get "https://www.kaiheila.cn/api/v3/gateway/index"
          [("Authorization", "Bot token"); ("Content-type", "application/json")]
          [("compress", 0)])
       (Gateway.init running)).
Proof.
  apply (GatewayFacts.start_refused inflate session_refused (Gateway.init running)
           (JObj [("code", JInt 1)]) (JInt 1)); reflexivity.
Defined.

Lemma start_connected_witness :
  Gateway._RAW_GATEWAY (Gateway.start inflate session_open (Gateway.init running)).2
    = gateway_url /\
  Websocket._queue
    (Websocket.self
       (Gateway.running (Gateway.start inflate session_open (Gateway.init running)).2))
    = [event_d] /\
  Websocket.sent
    (Websocket.ws_conn
       (Gateway.running (Gateway.start inflate session_open (Gateway.init running)).2))
    = [JObj [("s", JInt 2); ("sn", JInt 42)]].
Proof.
  rewrite (GatewayFacts.start_connected inflate session_open (Gateway.init running)
             (JObj [("code", JInt 0); ("data", JObj [("url", gateway_url)])]) (JInt 0)
             (JObj [("url", gateway_url)]) gateway_url
             [Websocket.Frame (frame 0); Websocket.Beat true]
             eq_refl eq_refl eq_refl eq_refl eq_refl eq_refl).
  repeat split; reflexivity.
Defined.

Lemma start_raises_before_receiving_witness :
  (Gateway.start inflate session_malformed (Gateway.init running)).1
    = Raise (KeyError "code") /\
  Gateway.running (Gateway.start inflate session_malformed (Gateway.init running)).2
    = running.
Proof.
  split; [reflexivity|].
  apply (GatewayFacts.start_raises_before_receiving inflate session_malformed
           (Gateway.init running) (KeyError "code") eq_refl).
Defined.

Lemma forged_not_verified pkg d :
  ~ Webhook.verified inflate webhook (request 4) pkg d.
Proof.
  intros (Hdec & Hd & tok & Htok & Heq).
  injection Hdec as <-. injection Hd as <-. injection Htok as <-. discriminate Heq.
Qed.

Lemma pong_not_verified pkg d :
  ~ Webhook.verified inflate webhook (request 1) pkg d.
Proof. intros (Hdec & Hd & _). injection Hdec as <-. discriminate Hd. Qed.

Lemma unverified_deliveries_change_nothing_witness :
  (Webhook.serve inflate [(0%float, request 4); (1%float, request 1)] webhook).2 = webhook.
Proof.
  apply (WebhookMore.unverified_deliveries_change_nothing inflate
           [(0%float, request 4); (1%float, request 1)] webhook).
  repeat constructor; [exact forged_not_verified|exact pong_not_verified].
Defined.

Lemma verified_delivery_records_sn_witness :
  Webhook.ledger_key event_pkg = Some (KNum 42) /\
  (Webhook._is_dup 5%float event_pkg webhook).1 = Return false /\
  Webhook.sn_dup_map (Webhook.on_recv inflate 5%float (request 0) webhook).2
    = <[KNum 42 := 5%float]> (Webhook.sn_dup_map webhook).
Proof.
  split; [reflexivity|]. split; [reflexivity|].
  apply (WebhookMore.verified_delivery_records_sn inflate 5%float (request 0) webhook
           event_pkg event_d (KNum 42) Examples.verified_event eq_refl eq_refl).
Defined.

Lemma verified_typeless :
  Webhook.verified inflate webhook_retry (request 0) typeless_pkg typeless_d.
Proof.
  split; [reflexivity|]. split; [reflexivity|]. exists (JStr "secret"). split; reflexivity.
Qed.

Lemma verified_retry :
  Webhook.verified inflate webhook_retry (request 1) retry_pkg retry_d.
Proof.
  split; [reflexivity|]. split; [reflexivity|]. exists (JStr "secret"). split; reflexivity.
Qed.

Lemma raising_delivery_uses_up_sn_witness :
  (Webhook.on_recv inflate 0%float (request 0) webhook_retry).1 = Raise (KeyError "type") /\
  (Webhook.on_recv inflate 60%float (request 1)
     (Webhook.on_recv inflate 0%float (request 0) webhook_retry).2).1
    = Return Webhook.web_Response /\
  Webhook._queue
    (Webhook.on_recv inflate 60%float (request 1)
       (Webhook.on_recv inflate 0%float (request 0) webhook_retry).2).2 = [].
Proof.
  split; [reflexivity|].
  destruct (WebhookMore.raising_delivery_uses_up_sn inflate
              0%float (request 0) typeless_pkg typeless_d
              60%float (request 1) retry_pkg retry_d (KNum 7) webhook_retry (KeyError "type")
              verified_typeless eq_refl eq_refl eq_refl verified_retry eq_refl)
    as [Hq Hdrop]; [reflexivity|].
  rewrite Hdrop. split; [reflexivity|exact Hq].
Defined.

Lemma response_is_200_witness :
  (Webhook.on_recv inflate 0%float (request 3) webhook).1 =
    Return (Webhook.web_json_response (JObj [("challenge", JStr "abc123")])) /\
  Webhook.status (Webhook.web_json_response (JObj [("challenge", JStr "abc123")])) = 200.
Proof.
  split; [reflexivity|].
  apply (WebhookMore.response_is_200 inflate 0%float (request 3) webhook
           (Webhook.web_json_response (JObj [("challenge", JStr "abc123")])) eq_refl).
Defined.

Lemma raises_only_after_decoding_witness :
  (Webhook.on_recv inflate 0%float (request 5) webhook).1 = Raise (KeyError "d") /\
  Webhook._queue (Webhook.on_recv inflate 0%float (request 5) webhook).2 = [].
Proof.
  split; [reflexivity|].
  apply (WebhookMore.raises_only_after_decoding inflate 0%float (request 5) webhook
           (KeyError "d") eq_refl).
Defined.

Lemma unusable_sn_witness :
  items_lookup "sn" [("s", JInt 0); ("sn", JArr [JInt 1])] = Some (JArr [JInt 1]) /\
  Webhook._is_dup 0%float (JObj [("s", JInt 0); ("sn", JArr [JInt 1])]) webhook
    = (Raise TypeError, webhook).
Proof.
  split; [reflexivity|].
  destruct (WebhookMore.unusable_sn inflate 0%float
              [("s", JInt 0); ("sn", JArr [JInt 1])] webhook (JArr [JInt 1]) eq_refl)
    as [_ Hbad].
  apply Hbad. left. exists [JInt 1]. reflexivity.
Defined.

Lemma recheck_finds_entry_witness :
  Webhook.ledger_key event_pkg = Some (KNum 42) /\
  (Webhook._is_dup 9%float event_pkg (Webhook._is_dup 9%float event_pkg webhook).2).1
    = Return true.
Proof.
  split; [reflexivity|].
  destruct (WebhookMore.recheck_finds_entry 9%float event_pkg webhook (KNum 42) eq_refl)
    as [Hnow _].
  rewrite Hnow; reflexivity.
Defined.

Lemma webhook_compression_is_transparent_witness :
  (Webhook.on_recv inflate 0%float (request 0) webhook).1 =
    (Webhook.on_recv inflate 0%float (request_plain 0) webhook_plain).1 /\
  Webhook._queue (Webhook.on_recv inflate 0%float (request 0) webhook).2 =
    Webhook._queue (Webhook.on_recv inflate 0%float (request_plain 0) webhook_plain).2.
Proof.
  destruct (WebhookMore.webhook_compression_is_transparent inflate 0%float
              (request 0) (request_plain 0) webhook webhook_plain
              [Byte.x78] [] eq_refl eq_refl eq_refl eq_refl eq_refl eq_refl eq_refl eq_refl)
    as (Hr & _ & Hq).
  split; [exact Hr|exact Hq].
Defined.

Lemma raw_list_sortable :
  Forall (Guild.sortable is_CATEGORY public_channel_factory) raw_list.
Proof.
  repeat constructor.
  - exists (JInt 0). split; [reflexivity|]. left. reflexivity.
  - exists (JInt 1). split; [reflexivity|]. right. exists text_item. reflexivity.
  - exists (JInt 2). split; [reflexivity|]. right. exists voice_item. reflexivity.
Qed.

Lemma fetch_channel_list_cached_witness :
  Guild.is_HNone (Guild._channels guild_fetched) = false /\
  Guild.fetch_channel_list is_CATEGORY public_channel_factory false (Return raw_list)
    guild_fetched
    = (Return (Guild.HList [text_item]), guild_fetched).
Proof.
  split; [reflexivity|].
  apply (GuildFacts.fetch_channel_list_cached is_CATEGORY public_channel_factory
           (Return raw_list) guild_fetched eq_refl).
Defined.

Lemma fetch_channel_list_sorts_witness :
  (Guild.fetch_channel_list is_CATEGORY public_channel_factory false (Return raw_list)
     guild).1 = Return (Guild.HList [text_item; voice_item]) /\
  Guild._channel_categories
    (Guild.fetch_channel_list is_CATEGORY public_channel_factory false (Return raw_list)
       guild).2 = [category_item].
Proof.
  destruct (GuildFacts.fetch_channel_list_sorts is_CATEGORY public_channel_factory
              false raw_list guild {| Guild.asked := [] |} eq_refl eq_refl raw_list_sortable)
    as (cl & _ & _).
  split; reflexivity.
Defined.

Lemma categories_accumulate_witness :
  Guild._channel_categories
    (Guild.fetch_channel_list is_CATEGORY public_channel_factory true (Return raw_list)
       (Guild.fetch_channel_list is_CATEGORY public_channel_factory true (Return raw_list)
          guild).2).2
    = [category_item; category_item].
Proof.
  destruct (GuildFacts.categories_accumulate is_CATEGORY public_channel_factory
              raw_list guild {| Guild.asked := [] |} eq_refl raw_list_sortable)
    as (cl & _ & _ & _ & _ & Htwice).
  exact Htwice.
Defined.

Lemma fetch_channel_list_failure_witness :
  (Guild.fetch_channel_list is_CATEGORY public_channel_factory true
     (Return [category_item; untyped_item; text_item]) guild_fetched).1
    = Raise (KeyError "type") /\
  Guild._channels
    (Guild.fetch_channel_list is_CATEGORY public_channel_factory true
       (Return [category_item; untyped_item; text_item]) guild_fetched).2
    = Guild.HList [text_item] /\
  Guild._channel_categories
    (Guild.fetch_channel_list is_CATEGORY public_channel_factory true
       (Return [category_item; untyped_item; text_item]) guild_fetched).2
    = [category_item].
Proof.
  split; [reflexivity|].
  destruct (GuildFacts.fetch_channel_list_failure is_CATEGORY public_channel_factory true
              (Return [category_item; untyped_item; text_item]) guild_fetched
              (KeyError "type") eq_refl) as (Hc & _).
  split; [exact Hc|reflexivity].
Defined.

Lemma channels_after_fetch_witness :
  Guild.channels guild
    = Guild.ValueError "not loaded, please call `await fetch_channel_list()` first" /\
  Guild.channels
    (Guild.fetch_channel_list is_CATEGORY public_channel_factory true (Return []) guild).2
    = Guild.Got (Guild.HList []).
Proof.
  split; [reflexivity|].
  destruct (GuildFacts.channels_after_fetch is_CATEGORY public_channel_factory true
              (Return []) guild) as [_ H].
  apply (H (Guild.HList [])). reflexivity.
Defined.

Lemma fetch_roles_replaces_witness :
  (Guild.fetch_roles (Channel := json) new_Role true
     (Return [JObj [("role_id", JInt 1)]; JObj [("name", JStr "mod")]]) guild).1
    = Raise (KeyError "role_id") /\
  Guild._roles
    (Guild.fetch_roles (Channel := json) new_Role true
       (Return [JObj [("role_id", JInt 1)]; JObj [("name", JStr "mod")]]) guild).2
    = Guild.HNone.
Proof.
  split; [reflexivity|].
  destruct (GuildFacts.fetch_roles_replaces (Channel := json) new_Role true
              (Return [JObj [("role_id", JInt 1)]; JObj [("name", JStr "mod")]]) guild)
    as (_ & H & _).
  apply (H (KeyError "role_id")). reflexivity.
Defined.


Lemma load_failure_witness :
  (Guild.load (Return (JObj [("name", JStr "renamed")])) guild_without_gate).1
    = Raise AttributeError /\
  (Guild.load (Return (JObj [("name", JStr "renamed")])) guild_without_gate).2
    = guild_without_gate.
Proof.
  split; [reflexivity|].
  destruct (GuildFacts.load_failure (Return (JObj [("name", JStr "renamed")]))
              guild_without_gate AttributeError eq_refl) as (_ & H & _).
  apply H. reflexivity.
Defined.

End MoreExamples.
